(** * Baccarat (punto banco): the round engine of [baccarat.py]

    A shallow embedding of the classes [Card], [Shoe], [Hand], [Punto],
    [Banco] and [Game] of [src/baccarat.py], followed by the properties of
    the round engine that are established on it.

    Conventions.
    - Python integers are [Z]; [%] with a positive modulus is [Z.modulo].
    - A Python list is a Rocq list in index order: [append] adds at the
      right end and [pop()] removes the right end.
    - A method that mutates its object is a computation in the state and
      exception monad [M]; an exception leaves the state as it was when
      it was raised.
    - [random.shuffle] and [print] act on an environment [Env] that holds
      the state of the random generator and the lines written so far. *)

From stdpp Require Import base tactics option list gmap strings.
From Stdlib Require Import ZArith Lia.

Local Open Scope Z_scope.

(** ** Python values that reach the engine *)

Inductive exn : Type :=
  | ValueError (msg : string)
  | TypeError (msg : string)
  | IndexError (msg : string)
  | KeyError (key : Z)
  | AttributeError (msg : string)
  | GameError (msg : string).

Inductive Res (A : Type) : Type :=
  | Ok (a : A)
  | Raise (e : exn).
Arguments Ok {A} a.
Arguments Raise {A} e.

(** ** Card *)

(** [SUITS] and [RANKS]: the constructor of [Card] rejects every other
    value, so a [Card] object is a rank and a suit of these two
    enumerations. *)
Inductive Suit : Type := hearts | spades | clubs | diamonds.

Inductive Rank : Type :=
  | ace | two | three | four | five | six | seven | eight | nine | ten
  | jack | queen | king.

Definition SUITS : list Suit := [hearts; spades; clubs; diamonds].
Definition RANKS : list Rank :=
  [ace; two; three; four; five; six; seven; eight; nine; ten;
   jack; queen; king].

#[global] Instance Suit_eq_dec : EqDecision Suit.
Proof. solve_decision. Defined.
#[global] Instance Rank_eq_dec : EqDecision Rank.
Proof. solve_decision. Defined.

(** The integer ranks of [RANKS]; the other ranks are strings. *)
Definition rank_int (r : Rank) : option Z :=
  match r with
  | two => Some 2 | three => Some 3 | four => Some 4 | five => Some 5
  | six => Some 6 | seven => Some 7 | eight => Some 8 | nine => Some 9
  | ten => Some 10
  | ace | jack | queen | king => None
  end.

Definition rank_str (r : Rank) : string :=
  match r with
  | ace => "ace" | two => "2" | three => "3" | four => "4" | five => "5"
  | six => "6" | seven => "7" | eight => "8" | nine => "9" | ten => "10"
  | jack => "jack" | queen => "queen" | king => "king"
  end.

Definition suit_str (s : Suit) : string :=
  match s with
  | hearts => "hearts" | spades => "spades"
  | clubs => "clubs" | diamonds => "diamonds"
  end.

Record Card : Type := mkCard { Card_rank : Rank; Card_suit : Suit }.

#[global] Instance Card_eq_dec : EqDecision Card.
Proof. solve_decision. Defined.

(** [rank in range(2, 10)] *)
Definition in_range_2_10 (r : Rank) : bool :=
  match rank_int r with
  | Some n => (2 <=? n) && (n <? 10)
  | None => false
  end.

(** [self._value = self._rank if self._rank in range(2, 10)
                   else 1 if self._rank == 'ace' else 0] *)
Definition Card_value (c : Card) : Z :=
  if in_range_2_10 (Card_rank c) then default 0 (rank_int (Card_rank c))
  else if bool_decide (Card_rank c = ace) then 1
  else 0.

(** [__add__] and [__radd__]: [(self._value + other) % 10] *)
Definition Card_add (c : Card) (other : Z) : Z :=
  (Card_value c + other) mod 10.

(** [__str__]: [f'{self._rank} of {self._suit}'] *)
Definition Card_str (c : Card) : string :=
  rank_str (Card_rank c) +:+ " of " +:+ suit_str (Card_suit c).

(** An argument that the source tests with [isinstance] or for truth. *)
Inductive pyobj : Type :=
  | PyNone
  | PyInt (z : Z)
  | PyStr (s : string)
  | PyCard (c : Card).

Definition truthy (o : pyobj) : bool :=
  match o with
  | PyNone => false
  | PyInt z => negb (z =? 0)
  | PyStr s => negb (bool_decide (s = ""%string))
  | PyCard _ => true
  end.

(** ** Hand, Punto, Banco *)

Record Hand : Type := mkHand { Hand_cards : list Card }.

(** [sum(self._cards)]: starts at 0 and adds each card with [__radd__]. *)
Definition Hand_value (h : Hand) : Z :=
  fold_left (fun acc c => Card_add c acc) (Hand_cards h) 0.

(** [add_cards]: appends card by card; an element that is not a [Card]
    raises after the cards before it were appended. *)
Fixpoint Hand_add_cards (cards : list pyobj) (h : Hand) : Res unit * Hand :=
  match cards with
  | [] => (Ok tt, h)
  | PyCard c :: rest => Hand_add_cards rest (mkHand (Hand_cards h ++ [c]))
  | _ :: _ => (Raise (TypeError "Not a valid Card type object."), h)
  end.

(** [Hand.__init__], which [Punto.__init__] and [Banco.__init__] call. *)
Definition Hand_init (cards : list pyobj) : Res Hand :=
  match Hand_add_cards cards (mkHand []) with
  | (Ok _, h) => Ok h
  | (Raise e, _) => Raise e
  end.

Definition Punto_init := Hand_init.
Definition Banco_init := Hand_init.

Definition Hand_is_natural (h : Hand) : bool :=
  bool_decide (length (Hand_cards h) = 2%nat)
  && ((8 <=? Hand_value h) && (Hand_value h <=? 9)).

Definition Punto_draw_third (h : Hand) : bool :=
  if bool_decide (length (Hand_cards h) = 2%nat) then
    if (0 <=? Hand_value h) && (Hand_value h <=? 5) then true else false
  else false.

Definition third_card_rules : gmap Z (list Z) :=
  {[ 3 := [0; 1; 2; 3; 4; 5; 6; 7; 9];
     4 := [2; 3; 4; 5; 6; 7];
     5 := [4; 5; 6; 7];
     6 := [6; 7] ]}.

Definition Banco_draw_third (h : Hand) (player_third : pyobj) : Res bool :=
  if bool_decide (length (Hand_cards h) = 2%nat) then
    if truthy player_third then
      match player_third with
      | PyCard c =>
          if (0 <=? Hand_value h) && (Hand_value h <=? 2) then Ok true
          else if (3 <=? Hand_value h) && (Hand_value h <=? 6) then
            match third_card_rules !! Hand_value h with
            | Some allowed =>
                if bool_decide (Card_value c ∈ allowed) then Ok true
                else Ok false
            | None => Raise (KeyError (Hand_value h))
            end
          else Ok false
      | _ => Raise (TypeError "Punto third card not a Card type object.")
      end
    else
      if (0 <=? Hand_value h) && (Hand_value h <=? 5) then Ok true
      else Ok false
  else Ok false.

(** ** The state and exception monad *)

Definition M (S A : Type) : Type := S -> Res A * S.

Definition ret {S A} (a : A) : M S A := fun s => (Ok a, s).

Definition bind {S A B} (m : M S A) (k : A -> M S B) : M S B :=
  fun s =>
    match m s with
    | (Ok a, s') => k a s'
    | (Raise e, s') => (Raise e, s')
    end.

Definition raise {S A} (e : exn) : M S A := fun s => (Raise e, s).
Definition gets {S A} (f : S -> A) : M S A := fun s => (Ok (f s), s).
Definition modify {S} (f : S -> S) : M S unit := fun s => (Ok tt, f s).

(** A pure computation that may raise. *)
Definition lift {S A} (r : Res A) : M S A := fun s => (r, s).

Notation "'let!' x ':=' m 'in' k" := (bind m (fun x => k))
  (at level 10, x pattern, m at level 100, k at level 200).
Notation "m '>>>' k" := (bind m (fun _ => k))
  (at level 90, right associativity).

Definition when {S} (b : bool) (m : M S unit) : M S unit :=
  if b then m else ret tt.

(** ** The random generator

    [random.shuffle] belongs to Python's library: it rearranges a list in
    place and advances the generator.  Nothing else is assumed of it. *)
Class Random : Type := {
  rng : Type;
  shuffle : list Card -> rng -> list Card * rng;
  shuffle_perm : forall l g, (shuffle l g).1 ≡ₚ l
}.

Section Engine.
Context `{Random}.

Record Env : Type := mkEnv { Env_rng : rng; Env_stdout : list string }.

(** ** Shoe *)

Record Shoe : Type := mkShoe { Shoe_num_decks : Z; Shoe_cards : list Card }.

(** One pass of [for suit in SUITS: for rank in RANKS: Card(rank, suit)]. *)
Definition one_deck : list Card :=
  flat_map (fun suit => map (fun rank => mkCard rank suit) RANKS) SUITS.

(** [for i in range(num_decks)]: no pass when [num_decks] is negative. *)
Definition new_decks (num_decks : Z) : list Card :=
  mjoin (replicate (Z.to_nat num_decks) one_deck).

Definition print (line : string) : M (Shoe * Env) unit :=
  modify (fun '(s, e) => (s, mkEnv (Env_rng e) (Env_stdout e ++ [line]))).

(** [add_decks(num_decks=None)]: [not num_decks] holds of [None] and of 0. *)
Definition Shoe_add_decks (num_decks : option Z) : M (Shoe * Env) unit :=
  fun '(s, e) =>
    let num_decks :=
      match num_decks with
      | Some k => if k =? 0 then Shoe_num_decks s else k
      | None => Shoe_num_decks s
      end in
    let '(cards, g) := shuffle (Shoe_cards s ++ new_decks num_decks) (Env_rng e) in
    (Ok tt, (mkShoe (Shoe_num_decks s) cards, mkEnv g (Env_stdout e))).

(** [Shoe.__init__] for an integer argument. *)
Definition Shoe_init (num_decks : Z) : M Env Shoe :=
  fun e =>
    if num_decks <? 1 then
      (Raise (ValueError "Number of decks must be positive."), e)
    else
      match Shoe_add_decks None (mkShoe num_decks [], e) with
      | (Ok _, (s, e')) => (Ok s, e')
      | (Raise x, (_, e')) => (Raise x, e')
      end.

(** [list.pop()]: the last element, or [IndexError] on an empty list. *)
Definition list_pop {A} (l : list A) : option (A * list A) :=
  match reverse l with
  | [] => None
  | x :: r => Some (x, reverse r)
  end.

Definition Shoe_pop : M (Shoe * Env) Card :=
  fun '(s, e) =>
    match list_pop (Shoe_cards s) with
    | Some (c, rest) => (Ok c, (mkShoe (Shoe_num_decks s) rest, e))
    | None => (Raise (IndexError "pop from empty list"), (s, e))
    end.

(** The body of [for i in range(num_cards)] in [draw_cards], run [n]
    times on the cards drawn so far. *)
Fixpoint draw_loop (n : nat) (cards_drawn : list Card)
  : M (Shoe * Env) (list Card) :=
  match n with
  | O => ret cards_drawn
  | S n' =>
      let! empty := gets (fun st => bool_decide (length (Shoe_cards st.1) = 0%nat)) in
      when empty (Shoe_add_decks None >>> print "Refilling shoe...") >>>
      let! c := Shoe_pop in
      draw_loop n' (cards_drawn ++ [c])
  end.

Definition Shoe_draw_cards (num_cards : Z) : M (Shoe * Env) (list Card) :=
  draw_loop (Z.to_nat num_cards) [].

(** ** Game

    The fields of a [Game] that its card handling reads or writes
    ([_players] is used by [Table] only). *)
Record Game : Type := mkGame {
  Game_game_running : bool;
  Game_punto : option Hand;
  Game_banco : option Hand;
  Game_shoe : Shoe;
  Game_num_decks : Z
}.

Definition set_game_running (b : bool) : M (Game * Env) unit :=
  modify (fun '(g, e) =>
    (mkGame b (Game_punto g) (Game_banco g) (Game_shoe g) (Game_num_decks g), e)).

Definition set_punto (h : Hand) : M (Game * Env) unit :=
  modify (fun '(g, e) =>
    (mkGame (Game_game_running g) (Some h) (Game_banco g) (Game_shoe g)
            (Game_num_decks g), e)).

Definition set_banco (h : Hand) : M (Game * Env) unit :=
  modify (fun '(g, e) =>
    (mkGame (Game_game_running g) (Game_punto g) (Some h) (Game_shoe g)
            (Game_num_decks g), e)).

(** A method of [self._shoe] run from a method of the game. *)
Definition on_shoe {A} (m : M (Shoe * Env) A) : M (Game * Env) A :=
  fun '(g, e) =>
    let '(r, (s, e')) := m (Game_shoe g, e) in
    (r, (mkGame (Game_game_running g) (Game_punto g) (Game_banco g) s
                (Game_num_decks g), e')).

(** [self._punto] and [self._banco] as objects: a method call on [None]
    raises [AttributeError]. *)
Definition the_punto : M (Game * Env) Hand :=
  fun st =>
    match Game_punto st.1 with
    | Some h => (Ok h, st)
    | None => (Raise (AttributeError "NoneType"), st)
    end.

Definition the_banco : M (Game * Env) Hand :=
  fun st =>
    match Game_banco st.1 with
    | Some h => (Ok h, st)
    | None => (Raise (AttributeError "NoneType"), st)
    end.

(** [hand.cards[i]] *)
Definition card_at (h : Hand) (i : nat) : M (Game * Env) Card :=
  match Hand_cards h !! i with
  | Some c => ret c
  | None => raise (IndexError "list index out of range")
  end.

(** [self._punto.add_cards(cards)] and [self._banco.add_cards(cards)] *)
Definition punto_add_cards (cards : list Card) : M (Game * Env) unit :=
  let! h := the_punto in
  let '(r, h') := Hand_add_cards (PyCard <$> cards) h in
  set_punto h' >>> lift r.

Definition banco_add_cards (cards : list Card) : M (Game * Env) unit :=
  let! h := the_banco in
  let '(r, h') := Hand_add_cards (PyCard <$> cards) h in
  set_banco h' >>> lift r.

(** [create_shoe(num_decks)]: nothing is assigned when [Shoe] raises. *)
Definition Game_create_shoe (num_decks : Z) : M (Game * Env) unit :=
  fun '(g, e) =>
    match Shoe_init num_decks e with
    | (Ok s, e') =>
        (Ok tt,
         (mkGame (Game_game_running g) (Game_punto g) (Game_banco g) s
                 num_decks, e'))
    | (Raise x, e') => (Raise x, (g, e'))
    end.

(** [Game.__init__(num_decks=8)]: no round, no hands, a new shoe. *)
Definition Game_init (num_decks : Z) : M Env Game :=
  fun e =>
    match Shoe_init num_decks e with
    | (Ok s, e') => (Ok (mkGame false None None s num_decks), e')
    | (Raise x, e') => (Raise x, e')
    end.

Definition Game_deal_hands : M (Game * Env) unit :=
  let! running := gets (fun st => Game_game_running st.1) in
  when running (raise (GameError "Game is running")) >>>
  let! cards := on_shoe (Shoe_draw_cards 2) in
  let! p := lift (Punto_init (PyCard <$> cards)) in
  set_punto p >>>
  let! cards := on_shoe (Shoe_draw_cards 2) in
  let! b := lift (Banco_init (PyCard <$> cards)) in
  set_banco b >>>
  set_game_running true.

Definition Game_is_natural : M (Game * Env) bool :=
  let! running := gets (fun st => Game_game_running st.1) in
  when (negb running) (raise (GameError "Game is not running.")) >>>
  let! p := the_punto in
  let! natural :=
    (if Hand_is_natural p then ret true
     else let! b := the_banco in ret (Hand_is_natural b)) in
  when natural (set_game_running false) >>>
  ret natural.

Definition Game_draw_thirds : M (Game * Env) (list (list string)) :=
  let! running := gets (fun st => Game_game_running st.1) in
  when (negb running) (raise (GameError "Game is not running.")) >>>
  let! natural := Game_is_natural in
  when natural
    (raise (GameError "Can't draw third cards when there is a natural.")) >>>
  let third_draws := [] in
  let! p := the_punto in
  let! third_draws :=
    (if Punto_draw_third p then
       let! cards := on_shoe (Shoe_draw_cards 1) in
       punto_add_cards cards >>>
       let! p := the_punto in
       let! c := card_at p 2 in
       let third_draws := third_draws ++ [["punto"%string; Card_str c]] in
       let! b := the_banco in
       let! p := the_punto in
       let! c := card_at p 2 in
       let! draw := lift (Banco_draw_third b (PyCard c)) in
       if draw then
         let! cards := on_shoe (Shoe_draw_cards 1) in
         banco_add_cards cards >>>
         let! b := the_banco in
         let! c := card_at b 2 in
         ret (third_draws ++ [["banco"%string; Card_str c]])
       else ret third_draws
     else
       let! b := the_banco in
       let! draw := lift (Banco_draw_third b PyNone) in
       if draw then
         let! cards := on_shoe (Shoe_draw_cards 1) in
         banco_add_cards cards >>>
         let! b := the_banco in
         let! c := card_at b 2 in
         ret (third_draws ++ [["banco"%string; Card_str c]])
       else ret third_draws) in
  set_game_running false >>>
  ret third_draws.

Definition Game_game_result : M (Game * Env) string :=
  let! running := gets (fun st => Game_game_running st.1) in
  when running (raise (GameError "Game is running.")) >>>
  let! p := the_punto in
  let! b := the_banco in
  if Hand_value p >? Hand_value b then ret "punto"%string
  else
    let! p := the_punto in
    let! b := the_banco in
    if Hand_value p <? Hand_value b then ret "banco"%string
    else ret "tie"%string.

End Engine.

(** A generator for concrete runs: it cuts the list at a point that moves
    with every call. *)
Definition cut (l : list Card) (g : nat) : list Card * nat := (rotate g l, S g).

Lemma cut_perm (l : list Card) (g : nat) : (cut l g).1 ≡ₚ l.
Proof.
  unfold cut, rotate; simpl.
  rewrite Permutation_app_comm. by rewrite take_drop.
Qed.

Definition Random_cut : Random :=
  {| rng := nat; shuffle := cut; shuffle_perm := cut_perm |}.

(** The sum of the point values of a list of cards. *)
Definition points (cards : list Card) : Z :=
  foldr (fun c s => Card_value c + s) 0 cards.

(** [cards] is a shoe of [deck_count] decks: a permutation of that many
    decks, so [deck_count * 52] cards, every card [deck_count] times. *)
Definition holds_decks (deck_count : Z) (cards : list Card) : Prop :=
  cards ≡ₚ new_decks deck_count
  /\ Z.of_nat (length cards) = deck_count * 52
  /\ forall c : Card, Z.of_nat (count_occ Card_eq_dec cards c) = deck_count.

(** * Properties *)

(** ** Card and hand values *)

Lemma Card_value_table (c : Card) :
  Card_value c =
  match Card_rank c with
  | ace => 1
  | two => 2 | three => 3 | four => 4 | five => 5
  | six => 6 | seven => 7 | eight => 8 | nine => 9
  | ten | jack | queen | king => 0
  end.
Proof. destruct c as [[] s]; reflexivity. Qed.

Lemma Card_value_range (c : Card) : 0 <= Card_value c <= 9.
Proof. rewrite Card_value_table. destruct (Card_rank c); lia. Qed.

Lemma fold_Card_add (cards : list Card) (a : Z) :
  fold_left (fun acc c => Card_add c acc) cards (a mod 10)
  = (a + points cards) mod 10.
Proof.
  revert a; induction cards as [|c cards IH]; intros a; simpl.
  - by rewrite Z.add_0_r.
  - unfold Card_add at 2. rewrite Z.add_mod_idemp_r by lia.
    rewrite IH. f_equal. lia.
Qed.

Lemma Hand_value_points (h : Hand) :
  Hand_value h = points (Hand_cards h) mod 10.
Proof. exact (fold_Card_add (Hand_cards h) 0). Qed.

Lemma Hand_value_range (h : Hand) : 0 <= Hand_value h <= 9.
Proof.
  rewrite Hand_value_points.
  pose proof (Z.mod_pos_bound (points (Hand_cards h)) 10). lia.
Qed.

(** C8. The value of a hand, in particular of one with 2 or 3 cards, is
    the sum of the point values of its cards modulo 10, so it lies between
    0 and 9; an ace counts 1, the ranks 2 to 9 their face value, and 10,
    jack, queen and king count 0. *)
Theorem Hand_value_mod10 :
  (forall h : Hand,
     Hand_value h = points (Hand_cards h) mod 10 /\ 0 <= Hand_value h <= 9)
  /\ (forall c : Card,
        Card_value c =
        match Card_rank c with
        | ace => 1
        | two => 2 | three => 3 | four => 4 | five => 5
        | six => 6 | seven => 7 | eight => 8 | nine => 9
        | ten | jack | queen | king => 0
        end).
Proof.
  split.
  - intros h. split; [apply Hand_value_points | apply Hand_value_range].
  - apply Card_value_table.
Qed.

(** ** The third card rules *)

(** C7. [Punto.draw_third()] is true exactly when the hand has 2 cards
    and its value is between 0 and 5; so it is false for a 2-card hand of
    value 6, 7, 8 or 9 and for every 3-card hand. *)
Theorem Punto_draw_third_spec (h : Hand) :
  (Punto_draw_third h = true
   <-> length (Hand_cards h) = 2%nat /\ 0 <= Hand_value h <= 5)
  /\ (length (Hand_cards h) = 2%nat -> 6 <= Hand_value h <= 9 ->
      Punto_draw_third h = false)
  /\ (length (Hand_cards h) = 3%nat -> Punto_draw_third h = false).
Proof.
  unfold Punto_draw_third.
  pose proof (Hand_value_range h) as Hr.
  split; [split|split].
  - case_bool_decide; [|done].
    destruct (_ && _) eqn:E; [|done]. intros _. split; [done|lia].
  - intros [Hlen Hv]. rewrite bool_decide_true by done.
    replace ((0 <=? Hand_value h) && (Hand_value h <=? 5)) with true; [done|lia].
  - intros Hlen Hv. rewrite bool_decide_true by done.
    replace ((0 <=? Hand_value h) && (Hand_value h <=? 5)) with false; [done|lia].
  - intros Hlen. rewrite bool_decide_false; [done|lia].
Qed.

Lemma Punto_draw_third_spec_witness :
  Punto_draw_third (mkHand [mkCard two hearts; mkCard three clubs]) = true
  /\ Punto_draw_third (mkHand [mkCard four hearts; mkCard three clubs]) = false
  /\ Punto_draw_third
       (mkHand [mkCard ace hearts; mkCard ace clubs; mkCard ace spades]) = false.
Proof.
  split; [|split].
  - apply (proj1 (Punto_draw_third_spec
                    (mkHand [mkCard two hearts; mkCard three clubs]))).
    split; [reflexivity | change (0 <= 5 <= 5); lia].
  - apply (proj1 (proj2 (Punto_draw_third_spec
                    (mkHand [mkCard four hearts; mkCard three clubs])))).
    + reflexivity.
    + change (6 <= 7 <= 9); lia.
  - apply (proj2 (proj2 (Punto_draw_third_spec
             (mkHand [mkCard ace hearts; mkCard ace clubs; mkCard ace spades])))).
    reflexivity.
Defined.

Lemma small_value_cases (v : Z) :
  0 <= v <= 9 ->
  v = 0 \/ v = 1 \/ v = 2 \/ v = 3 \/ v = 4 \/ v = 5 \/ v = 6 \/ v = 7
  \/ v = 8 \/ v = 9.
Proof. lia. Qed.

Ltac split_value v H :=
  destruct (small_value_cases v H)
    as [->|[->|[->|[->|[->|[->|[->|[->|[->| ->]]]]]]]]].

(** C3. For a banco hand of 2 cards and punto's third card [c],
    [Banco.draw_third(c)] follows the table: value 0 to 2 draws; value 3
    draws unless the point value of [c] is 8; value 4 draws iff it is one of
    2 to 7; value 5 iff one of 4 to 7; value 6 iff 6 or 7; value 7 stands.
    Without a third card of punto it draws iff the value is between 0 and
    5, and a banco hand of 3 cards never draws. *)
Theorem Banco_draw_third_table :
  (forall (h : Hand) (c : Card),
     length (Hand_cards h) = 2%nat ->
     Banco_draw_third h (PyCard c) =
     Ok match Hand_value h with
        | 0 | 1 | 2 => true
        | 3 => negb (Card_value c =? 8)
        | 4 => bool_decide (Card_value c ∈ [2; 3; 4; 5; 6; 7])
        | 5 => bool_decide (Card_value c ∈ [4; 5; 6; 7])
        | 6 => bool_decide (Card_value c ∈ [6; 7])
        | _ => false
        end)
  /\ (forall h : Hand,
        length (Hand_cards h) = 2%nat ->
        Banco_draw_third h PyNone
        = Ok (bool_decide (0 <= Hand_value h <= 5)))
  /\ (forall (h : Hand) (third : pyobj),
        length (Hand_cards h) = 3%nat ->
        Banco_draw_third h third = Ok false).
Proof.
  split; [|split].
  - intros h c Hlen. unfold Banco_draw_third.
    rewrite bool_decide_true by done. simpl.
    pose proof (Hand_value_range h) as Hv.
    pose proof (Card_value_range c) as Hc.
    generalize dependent (Hand_value h). intros v Hv.
    generalize dependent (Card_value c). intros p Hp.
    split_value v Hv; split_value p Hp; vm_compute; reflexivity.
  - intros h Hlen. unfold Banco_draw_third.
    rewrite bool_decide_true by done. simpl.
    pose proof (Hand_value_range h) as Hv.
    generalize dependent (Hand_value h). intros v Hv.
    split_value v Hv; vm_compute; reflexivity.
  - intros h third Hlen. unfold Banco_draw_third.
    rewrite bool_decide_false; [done|lia].
Qed.

Lemma Banco_draw_third_table_witness :
  Banco_draw_third (mkHand [mkCard three hearts; mkCard king clubs])
                   (PyCard (mkCard eight spades)) = Ok false
  /\ Banco_draw_third (mkHand [mkCard three hearts; mkCard two clubs]) PyNone
     = Ok true
  /\ Banco_draw_third
       (mkHand [mkCard ace hearts; mkCard ace clubs; mkCard ace spades])
       PyNone = Ok false.
Proof.
  destruct Banco_draw_third_table as (Htable & Hnone & Hfull).
  split; [|split].
  - exact (Htable (mkHand [mkCard three hearts; mkCard king clubs])
                  (mkCard eight spades) eq_refl).
  - exact (Hnone (mkHand [mkCard three hearts; mkCard two clubs]) eq_refl).
  - exact (Hfull (mkHand [mkCard ace hearts; mkCard ace clubs; mkCard ace spades])
                 PyNone eq_refl).
Defined.

(** ** Building a hand *)

Lemma Hand_add_cards_Cards (cards : list Card) (h : Hand) :
  Hand_add_cards (PyCard <$> cards) h = (Ok tt, mkHand (Hand_cards h ++ cards)).
Proof.
  revert h; induction cards as [|c cards IH]; intros [l]; simpl.
  - by rewrite app_nil_r.
  - rewrite IH. simpl. by rewrite <- app_assoc.
Qed.

Lemma Hand_init_Cards (cards : list Card) :
  Hand_init (PyCard <$> cards) = Ok (mkHand cards).
Proof. unfold Hand_init. by rewrite Hand_add_cards_Cards. Qed.

(** C2, as the code has it.  A hand (punto or banco) built from a list of
    cards of any length is built without error and holds these cards in
    order: the constructor has no check of the size, so 2 cards succeed and
    so do 0, 1, 3 or more. *)
Theorem Hand_init_any_size (cards : list Card) :
  Punto_init (PyCard <$> cards) = Ok (mkHand cards)
  /\ Banco_init (PyCard <$> cards) = Ok (mkHand cards).
Proof. split; apply Hand_init_Cards. Qed.

(** C2 fails as stated: a punto and a banco built from 3 cards, and from
    no card, are built without error. *)
Lemma Hand_init_three_cards_ok :
  Punto_init (PyCard <$> [mkCard two hearts; mkCard three clubs; mkCard four spades])
  = Ok (mkHand [mkCard two hearts; mkCard three clubs; mkCard four spades])
  /\ Banco_init (PyCard <$> [mkCard two hearts; mkCard three clubs; mkCard four spades])
     = Ok (mkHand [mkCard two hearts; mkCard three clubs; mkCard four spades])
  /\ length [mkCard two hearts; mkCard three clubs; mkCard four spades] <> 2%nat
  /\ Punto_init [] = Ok (mkHand [])
  /\ Banco_init [] = Ok (mkHand []).
Proof. repeat split; discriminate. Qed.

(** ** The round *)

Section Round.
Context `{Random}.

(** The game with its running flag cleared. *)
Definition closed (g : Game) : Game :=
  mkGame false (Game_punto g) (Game_banco g) (Game_shoe g) (Game_num_decks g).

Lemma Game_is_natural_running (g : Game) (e : Env) (p b : Hand) :
  Game_game_running g = true ->
  Game_punto g = Some p ->
  Game_banco g = Some b ->
  Game_is_natural (g, e) =
  if Hand_is_natural p || Hand_is_natural b
  then (Ok true, (closed g, e))
  else (Ok false, (g, e)).
Proof.
  destruct g as [r pu ba sh nd]; simpl; intros -> -> ->.
  unfold Game_is_natural, closed, bind, gets, when, the_punto, the_banco; simpl.
  destruct (Hand_is_natural p); simpl; [done|].
  destruct (Hand_is_natural b); done.
Qed.

Lemma Game_draw_thirds_not_running (g : Game) (e : Env) :
  Game_game_running g = false ->
  Game_draw_thirds (g, e) = (Raise (GameError "Game is not running."), (g, e)).
Proof.
  intros Hr. unfold Game_draw_thirds, bind, gets, when, raise; simpl.
  by rewrite Hr.
Qed.

Lemma Game_game_result_closed (g : Game) (e : Env) (p b : Hand) :
  Game_game_running g = false ->
  Game_punto g = Some p ->
  Game_banco g = Some b ->
  Game_game_result (g, e) =
  (Ok (if Hand_value p >? Hand_value b then "punto"%string
       else if Hand_value p <? Hand_value b then "banco"%string
       else "tie"%string),
   (g, e)).
Proof.
  destruct g as [r pu ba sh nd]; simpl; intros -> -> ->.
  unfold Game_game_result, bind, gets, when, the_punto, the_banco, ret; simpl.
  destruct (Hand_value p >? Hand_value b); simpl; [done|].
  destruct (Hand_value p <? Hand_value b); done.
Qed.

(** What a successful [deal_hands()] leaves: a running game with both
    hands present. *)
Lemma Game_deal_hands_post (g0 g : Game) (e0 e : Env) :
  Game_deal_hands (g0, e0) = (Ok tt, (g, e)) ->
  Game_game_running g = true
  /\ exists p b, Game_punto g = Some p /\ Game_banco g = Some b.
Proof.
  destruct g0 as [r pu ba sh nd].
  unfold Game_deal_hands, bind, gets, when, raise, ret, on_shoe, lift,
    set_punto, set_banco, set_game_running, modify, Punto_init, Banco_init;
    simpl.
  destruct r; simpl; [by intros ?|].
  destruct (Shoe_draw_cards 2 (sh, e0)) as [[cs|x] [s1 e1]]; simpl;
    [|by intros ?].
  rewrite Hand_init_Cards; simpl.
  destruct (Shoe_draw_cards 2 (s1, e1)) as [[cs'|x] [s2 e2]]; simpl;
    [|by intros ?].
  rewrite Hand_init_Cards; simpl.
  intros [= <- <-]. simpl. eauto.
Qed.

(** C10. Once the round is closed and the hands are dealt,
    [game_result()] only reads: it returns punto, banco or tie as the value
    of punto is greater than, less than or equal to that of banco, it
    leaves the shoe, both hands, the flag and the environment as they
    were, and a second call returns the same outcome. *)
Theorem Game_game_result_pure (g : Game) (e : Env) (p b : Hand) :
  Game_game_running g = false ->
  Game_punto g = Some p ->
  Game_banco g = Some b ->
  exists outcome : string,
    Game_game_result (g, e) = (Ok outcome, (g, e))
    /\ (let! first := Game_game_result in
        let! second := Game_game_result in
        ret (first, second)) (g, e) = (Ok (outcome, outcome), (g, e))
    /\ (Hand_value p > Hand_value b -> outcome = "punto"%string)
    /\ (Hand_value p < Hand_value b -> outcome = "banco"%string)
    /\ (Hand_value p = Hand_value b -> outcome = "tie"%string).
Proof.
  intros Hr Hp Hb.
  pose proof (Game_game_result_closed g e p b Hr Hp Hb) as E.
  eexists. split; [exact E|]. split.
  - unfold bind. rewrite !E. reflexivity.
  - repeat split; intros Hv.
    + replace (Hand_value p >? Hand_value b) with true by lia. done.
    + replace (Hand_value p >? Hand_value b) with false by lia.
      replace (Hand_value p <? Hand_value b) with true by lia. done.
    + replace (Hand_value p >? Hand_value b) with false by lia.
      replace (Hand_value p <? Hand_value b) with false by lia. done.
Qed.

(** C9. [draw_thirds()] on a running round with a natural is not
    atomic: it raises the error of the natural after it has cleared the
    running flag, and nothing else has changed; so a call of
    [game_result()] after it succeeds and does not raise the error of a
    running game. *)
Theorem Game_draw_thirds_natural_closes (g : Game) (e : Env) (p b : Hand) :
  Game_game_running g = true ->
  Game_punto g = Some p ->
  Game_banco g = Some b ->
  Hand_is_natural p || Hand_is_natural b = true ->
  Game_draw_thirds (g, e) =
    (Raise (GameError "Can't draw third cards when there is a natural."),
     (closed g, e))
  /\ Game_game_running (closed g) = false
  /\ Game_game_result (closed g, e) =
     (Ok (if Hand_value p >? Hand_value b then "punto"%string
          else if Hand_value p <? Hand_value b then "banco"%string
          else "tie"%string),
      (closed g, e)).
Proof.
  intros Hr Hp Hb Hnat. split; [|split; [done|]].
  - pose proof (Game_is_natural_running g e p b Hr Hp Hb) as E.
    rewrite Hnat in E.
    unfold Game_draw_thirds, bind at 1 2, gets, when, ret; simpl.
    rewrite Hr; simpl. unfold bind at 1. rewrite E. reflexivity.
  - by apply Game_game_result_closed.
Qed.

(** C1, as the code has it.  When [deal_hands()] has dealt a natural,
    [is_natural()] returns true and clears the running flag; a call of
    [draw_thirds()] after it then raises the error of a game that is not
    running, not that of the natural, and changes nothing. *)
Theorem Game_is_natural_then_draw_thirds
    (g0 g : Game) (e0 e : Env) (p b : Hand) :
  Game_deal_hands (g0, e0) = (Ok tt, (g, e)) ->
  Game_punto g = Some p ->
  Game_banco g = Some b ->
  Hand_is_natural p || Hand_is_natural b = true ->
  Game_is_natural (g, e) = (Ok true, (closed g, e))
  /\ Game_game_running (closed g) = false
  /\ Game_draw_thirds (closed g, e) =
     (Raise (GameError "Game is not running."), (closed g, e)).
Proof.
  intros Hdeal Hp Hb Hnat.
  destruct (Game_deal_hands_post _ _ _ _ Hdeal) as [Hr _].
  split; [|split; [done|]].
  - rewrite (Game_is_natural_running g e p b Hr Hp Hb). by rewrite Hnat.
  - by apply Game_draw_thirds_not_running.
Qed.

End Round.

(** ** The shoe *)

Section ShoeProps.
Context `{Random}.

Lemma list_pop_snoc {A} (l : list A) (x : A) : list_pop (l ++ [x]) = Some (x, l).
Proof. unfold list_pop. by rewrite reverse_snoc, reverse_involutive. Qed.

Lemma snoc_of_length {A} (l : list A) :
  (0 < length l)%nat -> exists l' x, l = l' ++ [x].
Proof.
  destruct l as [|y l] using rev_ind; simpl; [lia|]. eauto.
Qed.

Lemma length_one_deck : length one_deck = 52%nat.
Proof. reflexivity. Qed.

Lemma length_new_decks (num_decks : Z) :
  length (new_decks num_decks) = (Z.to_nat num_decks * 52)%nat.
Proof.
  unfold new_decks. induction (Z.to_nat num_decks) as [|n IH]; [done|].
  change (mjoin (replicate (S n) one_deck))
    with (one_deck ++ mjoin (replicate n one_deck)).
  rewrite length_app, IH, length_one_deck. lia.
Qed.

Lemma shuffle_length (l : list Card) (g : rng) :
  length (shuffle l g).1 = length l.
Proof. apply Permutation_length, shuffle_perm. Qed.

(** [add_decks()] with the default argument. *)
Lemma Shoe_add_decks_None (s : Shoe) (e : Env) :
  Shoe_add_decks None (s, e) =
  (Ok tt,
   (mkShoe (Shoe_num_decks s)
      (shuffle (Shoe_cards s ++ new_decks (Shoe_num_decks s)) (Env_rng e)).1,
    mkEnv (shuffle (Shoe_cards s ++ new_decks (Shoe_num_decks s)) (Env_rng e)).2
      (Env_stdout e))).
Proof. unfold Shoe_add_decks. by destruct (shuffle _ _). Qed.

(** One turn of the loop of [draw_cards] on a shoe that is not empty. *)
Lemma draw_loop_S_snoc (n : nat) (acc : list Card) (nd : Z)
    (l : list Card) (x : Card) (e : Env) :
  draw_loop (S n) acc (mkShoe nd (l ++ [x]), e)
  = draw_loop n (acc ++ [x]) (mkShoe nd l, e).
Proof.
  simpl. unfold bind, gets, when, ret, Shoe_pop; simpl.
  rewrite bool_decide_false by (rewrite length_app; simpl; lia).
  simpl. by rewrite list_pop_snoc.
Qed.

(** One turn of the loop on an empty shoe whose refill ends with [x]. *)
Lemma draw_loop_S_empty (n : nat) (acc : list Card) (nd : Z)
    (l : list Card) (x : Card) (e : Env) :
  (shuffle (new_decks nd) (Env_rng e)).1 = l ++ [x] ->
  draw_loop (S n) acc (mkShoe nd [], e)
  = draw_loop n (acc ++ [x])
      (mkShoe nd l,
       mkEnv (shuffle (new_decks nd) (Env_rng e)).2
             (Env_stdout e ++ ["Refilling shoe..."%string])).
Proof.
  intros Hl. simpl.
  unfold bind, gets, when, ret, Shoe_pop, Shoe_add_decks, print, modify; simpl.
  destruct (shuffle (new_decks nd) (Env_rng e)) as [cards g]; simpl in *.
  subst cards. by rewrite list_pop_snoc.
Qed.

Lemma draw_loop_spec (n : nat) :
  forall (s : Shoe) (e : Env) (acc : list Card),
    1 <= Shoe_num_decks s ->
    exists (drawn : list Card) (s' : Shoe) (e' : Env) (refills : nat),
      draw_loop n acc (s, e) = (Ok (acc ++ drawn), (s', e'))
      /\ length drawn = n
      /\ Shoe_num_decks s' = Shoe_num_decks s
      /\ Env_stdout e' =
         Env_stdout e ++ replicate refills "Refilling shoe..."%string
      /\ (length (Shoe_cards s') + n
          = length (Shoe_cards s)
            + refills * (Z.to_nat (Shoe_num_decks s) * 52))%nat
      /\ ((n <= length (Shoe_cards s))%nat ->
          refills = 0%nat /\ e' = e
          /\ Shoe_cards s = Shoe_cards s' ++ reverse drawn)
      /\ ((0 < refills)%nat ->
          (length (Shoe_cards s') < Z.to_nat (Shoe_num_decks s) * 52)%nat).
Proof.
  induction n as [|n IH]; intros [nd cards] e acc Hnd; simpl in Hnd.
  - exists [], (mkShoe nd cards), e, 0%nat. simpl.
    rewrite !app_nil_r. unfold ret. repeat split; try done; lia.
  - destruct (decide (cards = [])) as [->|Hne].
    + pose proof (shuffle_length (new_decks nd) (Env_rng e)) as Hlen.
      rewrite length_new_decks in Hlen.
      destruct (snoc_of_length (shuffle (new_decks nd) (Env_rng e)).1)
        as (l & x & Hl); [lia|].
      rewrite Hl, length_app in Hlen; simpl in Hlen.
      rewrite (draw_loop_S_empty n acc nd l x e Hl).
      destruct (IH (mkShoe nd l)
                  (mkEnv (shuffle (new_decks nd) (Env_rng e)).2
                         (Env_stdout e ++ ["Refilling shoe..."%string]))
                  (acc ++ [x]) Hnd)
        as (drawn & s' & e' & k & Hrun & Hd & Hn & Hout & Hcount & _ & Hlt).
      simpl in *.
      exists (x :: drawn), s', e', (S k). rewrite Hrun.
      split; [by rewrite <- app_assoc|].
      split; [simpl; lia|]. split; [done|].
      split; [by rewrite Hout, <- app_assoc|].
      split; [lia|]. split; [lia|].
      intros _. destruct k as [|k]; [lia|]. apply Hlt. lia.
    + destruct (snoc_of_length cards) as (l & x & ->);
        [destruct cards; simpl; [done|lia]|].
      rewrite draw_loop_S_snoc.
      destruct (IH (mkShoe nd l) e (acc ++ [x]) Hnd)
        as (drawn & s' & e' & k & Hrun & Hd & Hn & Hout & Hcount & Hnone & Hlt).
      simpl in *.
      exists (x :: drawn), s', e', k. rewrite Hrun.
      split; [by rewrite <- app_assoc|].
      split; [simpl; lia|]. split; [done|]. split; [done|].
      rewrite length_app; simpl.
      split; [lia|]. split; [|done].
      intros Hle. destruct Hnone as (-> & -> & ->); [lia|].
      by rewrite reverse_cons, app_assoc.
Qed.


(** The 52 cards of a deck are all the cards, once each. *)
Lemma count_one_deck (c : Card) : count_occ Card_eq_dec one_deck c = 1%nat.
Proof. destruct c as [[] []]; vm_compute; reflexivity. Qed.

Lemma count_new_decks (num_decks : Z) (c : Card) :
  count_occ Card_eq_dec (new_decks num_decks) c = Z.to_nat num_decks.
Proof.
  unfold new_decks. induction (Z.to_nat num_decks) as [|n IH]; [done|].
  change (mjoin (replicate (S n) one_deck))
    with (one_deck ++ mjoin (replicate n one_deck)).
  by rewrite count_occ_app, count_one_deck, IH.
Qed.

Lemma holds_decks_perm (deck_count : Z) (cards : list Card) :
  0 <= deck_count ->
  cards ≡ₚ new_decks deck_count -> holds_decks deck_count cards.
Proof.
  intros Hd Hp. split; [done|]. split.
  - rewrite (Permutation_length Hp), length_new_decks. lia.
  - intros c.
    rewrite (proj1 (Permutation_count_occ Card_eq_dec _ _) Hp c).
    rewrite count_new_decks. lia.
Qed.

(** C5, as the code has it.  For [deck_count >= 1], the shoe that the
    constructor builds, and an empty shoe after a refill (the refill of
    [draw_cards]), hold [deck_count * 52] cards, each of the 52 cards
    [deck_count] times, in some order.  A refill puts these cards with
    those that the shoe still holds. *)
Theorem Shoe_refill_composition (deck_count : Z) (e : Env) :
  1 <= deck_count ->
  (exists (s : Shoe) (e' : Env),
      Shoe_init deck_count e = (Ok s, e')
      /\ Shoe_num_decks s = deck_count
      /\ holds_decks deck_count (Shoe_cards s))
  /\ (forall s : Shoe,
        Shoe_num_decks s = deck_count ->
        exists (s' : Shoe) (e' : Env),
          Shoe_add_decks None (s, e) = (Ok tt, (s', e'))
          /\ Shoe_num_decks s' = deck_count
          /\ Shoe_cards s' ≡ₚ Shoe_cards s ++ new_decks deck_count
          /\ (Shoe_cards s = [] -> holds_decks deck_count (Shoe_cards s'))).
Proof.
  intros Hd. split.
  - unfold Shoe_init. replace (deck_count <? 1) with false by lia.
    rewrite Shoe_add_decks_None. simpl.
    eexists _, _. split; [done|]. split; [done|].
    apply holds_decks_perm; [lia|]. apply shuffle_perm.
  - intros s <-. rewrite Shoe_add_decks_None.
    eexists _, _. split; [done|]. split; [done|]. simpl.
    split; [apply shuffle_perm|].
    intros Hempty. apply holds_decks_perm; [lia|].
    rewrite shuffle_perm. by rewrite Hempty.
Qed.

End ShoeProps.

(** ** Drawing the third cards *)

Section Thirds.
Context `{Random}.

Lemma Shoe_draw_one (s : Shoe) (e : Env) :
  1 <= Shoe_num_decks s ->
  exists (c : Card) (s' : Shoe) (e' : Env),
    Shoe_draw_cards 1 (s, e) = (Ok [c], (s', e'))
    /\ Shoe_num_decks s' = Shoe_num_decks s.
Proof.
  intros Hnd. unfold Shoe_draw_cards.
  destruct (draw_loop_spec (Z.to_nat 1) s e [] Hnd)
    as (drawn & s' & e' & k & Hrun & Hd & Hs & _).
  destruct drawn as [|c [|]]; try discriminate.
  by exists c, s', e'.
Qed.

Lemma third_card_rules_lookup (v : Z) :
  3 <= v <= 6 -> is_Some (third_card_rules !! v).
Proof.
  intros Hv.
  assert (v = 3 \/ v = 4 \/ v = 5 \/ v = 6) as [->|[->|[->| ->]]] by lia;
    vm_compute; eauto.
Qed.

Lemma Banco_draw_third_Card_total (b : Hand) (c : Card) :
  exists d : bool, Banco_draw_third b (PyCard c) = Ok d.
Proof.
  unfold Banco_draw_third. case_bool_decide; [|eauto]. simpl.
  destruct ((0 <=? Hand_value b) && (Hand_value b <=? 2)); [eauto|].
  destruct ((3 <=? Hand_value b) && (Hand_value b <=? 6)) eqn:E; [|eauto].
  destruct (third_card_rules_lookup (Hand_value b)) as [l ->]; [lia|].
  destruct (bool_decide _); eauto.
Qed.

Lemma Banco_draw_third_None_total (b : Hand) :
  exists d : bool, Banco_draw_third b PyNone = Ok d.
Proof.
  unfold Banco_draw_third. case_bool_decide; [|eauto]. simpl.
  destruct (_ && _); eauto.
Qed.

Lemma Banco_draw_third_true_length (b : Hand) (third : pyobj) :
  Banco_draw_third b third = Ok true -> length (Hand_cards b) = 2%nat.
Proof. unfold Banco_draw_third. by case_bool_decide. Qed.

Lemma Punto_draw_third_true_length (p : Hand) :
  Punto_draw_third p = true -> length (Hand_cards p) = 2%nat.
Proof. unfold Punto_draw_third. by case_bool_decide. Qed.

(** The card at index 2 of a hand of 2 cards that took one more. *)
Lemma third_card (cards : list Card) (c : Card) :
  length cards = 2%nat -> (cards ++ [c]) !! 2%nat = Some c.
Proof. intros <-. by apply list_lookup_middle. Qed.

(** Runs the steps of a method that do not depend on the cards. *)
Ltac run :=
  repeat (progress
    (unfold bind, gets, when, raise, ret, lift, the_punto, the_banco,
       on_shoe, punto_add_cards, banco_add_cards, set_punto, set_banco,
       set_game_running, modify, card_at; simpl)).

#[local] Arguments Hand_is_natural : simpl never.
#[local] Arguments Punto_draw_third : simpl never.
#[local] Arguments Banco_draw_third : simpl never.
#[local] Arguments Shoe_draw_cards : simpl never.
#[local] Arguments Card_str : simpl never.

(** C4. [draw_thirds()] on a running round without a natural.  If
    [Punto.draw_third()] holds, one card is drawn into punto and
    recorded, and then one card is drawn into banco and recorded exactly
    when [Banco.draw_third] of punto's new card holds.  If it does not
    hold, one card is drawn into banco and recorded exactly when
    [Banco.draw_third] without a card holds.  The records are in the order
    of the draws, at most one for each hand and possibly none; the round is
    closed and nothing else changes. *)
Theorem Game_draw_thirds_sequence (g : Game) (e : Env) (p b : Hand) :
  Game_game_running g = true ->
  Game_punto g = Some p ->
  Game_banco g = Some b ->
  Hand_is_natural p || Hand_is_natural b = false ->
  1 <= Shoe_num_decks (Game_shoe g) ->
  if Punto_draw_third p then
    exists (c1 : Card) (s1 : Shoe) (e1 : Env) (draw : bool),
      Shoe_draw_cards 1 (Game_shoe g, e) = (Ok [c1], (s1, e1))
      /\ Banco_draw_third b (PyCard c1) = Ok draw
      /\ if draw then
           exists (c2 : Card) (s2 : Shoe) (e2 : Env),
             Shoe_draw_cards 1 (s1, e1) = (Ok [c2], (s2, e2))
             /\ Game_draw_thirds (g, e) =
                (Ok [["punto"%string; Card_str c1];
                     ["banco"%string; Card_str c2]],
                 (mkGame false
                    (Some (mkHand (Hand_cards p ++ [c1])))
                    (Some (mkHand (Hand_cards b ++ [c2])))
                    s2 (Game_num_decks g), e2))
         else
           Game_draw_thirds (g, e) =
           (Ok [["punto"%string; Card_str c1]],
            (mkGame false (Some (mkHand (Hand_cards p ++ [c1]))) (Some b)
                    s1 (Game_num_decks g), e1))
  else
    exists draw : bool,
      Banco_draw_third b PyNone = Ok draw
      /\ if draw then
           exists (c2 : Card) (s2 : Shoe) (e2 : Env),
             Shoe_draw_cards 1 (Game_shoe g, e) = (Ok [c2], (s2, e2))
             /\ Game_draw_thirds (g, e) =
                (Ok [["banco"%string; Card_str c2]],
                 (mkGame false (Some p)
                    (Some (mkHand (Hand_cards b ++ [c2])))
                    s2 (Game_num_decks g), e2))
         else
           Game_draw_thirds (g, e) = (Ok [], (closed g, e)).
Proof.
  destruct g as [r pu ba sh nd]; simpl. intros -> -> -> Hnat Hnd.
  apply orb_false_elim in Hnat as [Hnp Hnb].
  unfold Game_draw_thirds, Game_is_natural, closed. run.
  rewrite Hnp; run. rewrite Hnb; run.
  destruct (Punto_draw_third p) eqn:HP; run.
  - pose proof (Punto_draw_third_true_length p HP) as Hlp.
    destruct (Shoe_draw_one sh e Hnd) as (c1 & s1 & e1 & Hd1 & Hn1).
    destruct (Banco_draw_third_Card_total b c1) as [draw Hdraw].
    exists c1, s1, e1, draw. split; [done|]. split; [done|].
    rewrite Hd1; run. repeat (rewrite (third_card _ c1 Hlp); run).
    rewrite Hdraw. destruct draw; run; [|done].
    pose proof (Banco_draw_third_true_length b _ Hdraw) as Hlb.
    rewrite <- Hn1 in Hnd.
    destruct (Shoe_draw_one s1 e1 Hnd) as (c2 & s2 & e2 & Hd2 & _).
    exists c2, s2, e2. split; [done|].
    rewrite Hd2; run. by repeat (rewrite (third_card _ c2 Hlb); run).
  - destruct (Banco_draw_third_None_total b) as [draw Hdraw].
    exists draw. split; [done|].
    rewrite Hdraw. destruct draw; run; [|done].
    pose proof (Banco_draw_third_true_length b _ Hdraw) as Hlb.
    destruct (Shoe_draw_one sh e Hnd) as (c2 & s2 & e2 & Hd2 & _).
    exists c2, s2, e2. split; [done|].
    rewrite Hd2; run. by repeat (rewrite (third_card _ c2 Hlb); run).
Qed.

End Thirds.

(** ** Concrete rounds

    Runs of the engine with the generator [Random_cut]. *)

Section Runs.
#[local] Existing Instance Random_cut.

Definition env0 : Env := mkEnv 0%nat [].

(** A shoe of one deck of which four cards are left: punto will draw the
    7 and the 2 of hearts, banco the 4 and the 3 of spades. *)
Definition shoe4 : Shoe :=
  mkShoe 1 [mkCard three spades; mkCard four spades;
            mkCard two hearts; mkCard seven hearts].

Definition punto9 : Hand := mkHand [mkCard seven hearts; mkCard two hearts].
Definition banco7 : Hand := mkHand [mkCard four spades; mkCard three spades].

Definition game_idle : Game := mkGame false None None shoe4 1.
Definition game_dealt : Game :=
  mkGame true (Some punto9) (Some banco7) (mkShoe 1 []) 1.

(** A running round without a natural, punto at 5 and banco at 5, and a
    shoe that will give the 6 of hearts and then the king of clubs. *)
Definition punto5 : Hand := mkHand [mkCard two hearts; mkCard three hearts].
Definition banco5 : Hand := mkHand [mkCard four spades; mkCard ace spades].
Definition game_thirds : Game :=
  mkGame true (Some punto5) (Some banco5)
         (mkShoe 1 [mkCard king clubs; mkCard six hearts]) 1.

(** C1 fails as stated: after [deal_hands()] has dealt a natural and
    [is_natural()] has returned true, [draw_thirds()] raises the error of
    a game that is not running, which is not the error of the natural. *)
Lemma Game_draw_thirds_after_is_natural :
  Game_deal_hands (game_idle, env0) = (Ok tt, (game_dealt, env0))
  /\ Hand_is_natural punto9 = true
  /\ Game_is_natural (game_dealt, env0) = (Ok true, (closed game_dealt, env0))
  /\ Game_draw_thirds (closed game_dealt, env0)
     = (Raise (GameError "Game is not running."), (closed game_dealt, env0))
  /\ GameError "Game is not running."
     <> GameError "Can't draw third cards when there is a natural.".
Proof.
  split; [vm_compute; reflexivity|]. split; [vm_compute; reflexivity|].
  split; [vm_compute; reflexivity|]. split; [vm_compute; reflexivity|].
  discriminate.
Qed.

Lemma Game_is_natural_then_draw_thirds_witness :
  Game_deal_hands (game_idle, env0) = (Ok tt, (game_dealt, env0))
  /\ Game_is_natural (game_dealt, env0) = (Ok true, (closed game_dealt, env0))
  /\ Game_game_running (closed game_dealt) = false
  /\ Game_draw_thirds (closed game_dealt, env0)
     = (Raise (GameError "Game is not running."), (closed game_dealt, env0)).
Proof.
  split; [vm_compute; reflexivity|].
  apply (Game_is_natural_then_draw_thirds
           game_idle game_dealt env0 env0 punto9 banco7).
  - vm_compute; reflexivity.
  - reflexivity.
  - reflexivity.
  - vm_compute; reflexivity.
Defined.

Lemma Game_draw_thirds_natural_closes_witness :
  Game_draw_thirds (game_dealt, env0) =
    (Raise (GameError "Can't draw third cards when there is a natural."),
     (closed game_dealt, env0))
  /\ Game_game_running (closed game_dealt) = false
  /\ Game_game_result (closed game_dealt, env0)
     = (Ok "punto"%string, (closed game_dealt, env0)).
Proof.
  exact (Game_draw_thirds_natural_closes game_dealt env0 punto9 banco7
           eq_refl eq_refl eq_refl eq_refl).
Defined.

Lemma Game_game_result_pure_witness :
  Game_game_running (closed game_dealt) = false
  /\ exists outcome : string,
       Game_game_result (closed game_dealt, env0)
       = (Ok outcome, (closed game_dealt, env0))
       /\ (let! first := Game_game_result in
           let! second := Game_game_result in
           ret (first, second)) (closed game_dealt, env0)
          = (Ok (outcome, outcome), (closed game_dealt, env0)).
Proof.
  split; [reflexivity|].
  destruct (Game_game_result_pure (closed game_dealt) env0 punto9 banco7
              eq_refl eq_refl eq_refl) as (outcome & Hone & Htwo & _).
  exists outcome. split; [exact Hone | exact Htwo].
Defined.

Lemma Game_draw_thirds_sequence_witness :
  Hand_is_natural punto5 || Hand_is_natural banco5 = false
  /\ Punto_draw_third punto5 = true
  /\ Banco_draw_third banco5 (PyCard (mkCard six hearts)) = Ok true
  /\ Game_draw_thirds (game_thirds, env0) =
     (Ok [["punto"; "6 of hearts"]; ["banco"; "king of clubs"]]%string,
      (mkGame false
         (Some (mkHand (Hand_cards punto5 ++ [mkCard six hearts])))
         (Some (mkHand (Hand_cards banco5 ++ [mkCard king clubs])))
         (mkShoe 1 []) 1, env0)).
Proof.
  split; [vm_compute; reflexivity|]. split; [vm_compute; reflexivity|].
  split; [vm_compute; reflexivity|].
  assert (1 <= Shoe_num_decks (Game_shoe game_thirds)) as Hdecks
    by (simpl; lia).
  pose proof (Game_draw_thirds_sequence game_thirds env0 punto5 banco5
                eq_refl eq_refl eq_refl eq_refl Hdecks) as T.
  change (Punto_draw_third punto5) with true in T. cbv iota in T.
  destruct T as (c1 & s1 & e1 & draw & Hd1 & Hdraw & T).
  vm_compute in Hd1. injection Hd1 as Hc1 Hs1 He1. subst c1 s1 e1.
  vm_compute in Hdraw. injection Hdraw as Hdraw. subst draw.
  destruct T as (c2 & s2 & e2 & Hd2 & T).
  vm_compute in Hd2. injection Hd2 as Hc2 Hs2 He2. subst c2 s2 e2.
  exact T.
Defined.


Lemma Shoe_refill_composition_witness :
  1 <= 2
  /\ exists (s : Shoe) (e' : Env),
       Shoe_init 2 env0 = (Ok s, e')
       /\ Shoe_num_decks s = 2
       /\ holds_decks 2 (Shoe_cards s).
Proof.
  assert (1 <= 2) as Hd by lia.
  split; [exact Hd|].
  exact (proj1 (Shoe_refill_composition 2 env0 Hd)).
Defined.

(** C5 fails as stated: a refill of the shoe of one deck that the
    constructor has built leaves 104 cards in it, not 52. *)
Lemma Shoe_refill_on_cards_adds :
  match Shoe_init 1 env0 with
  | (Ok s, e) =>
      match Shoe_add_decks None (s, e) with
      | (r, (s', _)) =>
          (length (Shoe_cards s), r, Shoe_num_decks s', length (Shoe_cards s'))
      end
  | (Raise _, _) => (0%nat, Ok tt, 0, 0%nat)
  end = (52%nat, Ok tt, 1, 104%nat).
Proof. vm_compute. reflexivity. Qed.

End Runs.

(** * More of the engine

    The rest of [Card], [Hand], [Shoe] and [Game], then [Player] and
    [Table]. *)

(** ** Hands *)

(** [isinstance(card, Card)] *)
Definition is_Card (o : pyobj) : bool :=
  match o with
  | PyCard _ => true
  | _ => false
  end.

Lemma points_app (l1 l2 : list Card) : points (l1 ++ l2) = points l1 + points l2.
Proof. induction l1 as [|c l1 IH]; simpl; [done|]. rewrite IH. lia. Qed.

Lemma points_perm (l1 l2 : list Card) : l1 ≡ₚ l2 -> points l1 = points l2.
Proof.
  induction 1 as [|c l1 l2 _ IH|c1 c2 l|l1 l2 l3 _ IH1 _ IH2]; simpl; lia.
Qed.

Lemma Hand_add_cards_stops
    (before : list Card) (o : pyobj) (rest : list pyobj) (h : Hand) :
  is_Card o = false ->
  Hand_add_cards ((PyCard <$> before) ++ o :: rest) h
  = (Raise (TypeError "Not a valid Card type object."),
     mkHand (Hand_cards h ++ before)).
Proof.
  intros Ho. revert h.
  induction before as [|c before IH]; intros [l]; simpl.
  - rewrite app_nil_r. by destruct o.
  - rewrite IH. simpl. by rewrite <- app_assoc.
Qed.

(** X1. [add_cards] is not atomic: when the list holds an object that is
    not a card after some cards, it raises [TypeError] and the cards before
    that object stay in the hand. *)
Theorem Hand_add_cards_partial
    (before : list Card) (o : pyobj) (rest : list pyobj) (h : Hand) :
  is_Card o = false ->
  Hand_add_cards ((PyCard <$> before) ++ o :: rest) h
  = (Raise (TypeError "Not a valid Card type object."),
     mkHand (Hand_cards h ++ before)).
Proof. apply Hand_add_cards_stops. Qed.

Lemma Hand_add_cards_partial_witness :
  Hand_add_cards [PyCard (mkCard ace hearts); PyInt 7; PyCard (mkCard two clubs)]
                 (mkHand [mkCard king spades])
  = (Raise (TypeError "Not a valid Card type object."),
     mkHand [mkCard king spades; mkCard ace hearts]).
Proof.
  exact (Hand_add_cards_partial [mkCard ace hearts] (PyInt 7)
           [PyCard (mkCard two clubs)] (mkHand [mkCard king spades]) eq_refl).
Defined.

(** X2. A hand is built exactly from the lists that hold cards only: such
    a list gives the hand of these cards, whatever their number, and any
    other list raises [TypeError]. *)
Theorem Hand_init_iff_Cards (objs : list pyobj) :
  (forallb is_Card objs = true ->
   exists cards : list Card,
     objs = PyCard <$> cards /\ Hand_init objs = Ok (mkHand cards))
  /\ (forallb is_Card objs = false ->
      Hand_init objs = Raise (TypeError "Not a valid Card type object.")).
Proof.
  split.
  - intros Hall.
    assert (exists cards, objs = PyCard <$> cards) as [cards ->].
    { induction objs as [|o objs IH]; [by exists []|].
      simpl in Hall. apply andb_prop in Hall as [Ho Hall].
      destruct (IH Hall) as [cards ->]. destruct o; try discriminate.
      by exists (c :: cards). }
    exists cards. split; [done|]. apply Hand_init_Cards.
  - intros Hsome.
    assert (exists before o rest,
               objs = (PyCard <$> before) ++ o :: rest /\ is_Card o = false)
      as (before & o & rest & -> & Ho).
    { induction objs as [|o objs IH]; [discriminate|].
      simpl in Hsome. destruct (is_Card o) eqn:Ho.
      - destruct (IH Hsome) as (before & o' & rest & -> & Ho').
        destruct o; try discriminate.
        by exists (c :: before), o', rest.
      - by exists [], o, objs. }
    unfold Hand_init. by rewrite Hand_add_cards_stops.
Qed.

Lemma Hand_init_iff_Cards_witness :
  Hand_init [PyCard (mkCard ace hearts)] = Ok (mkHand [mkCard ace hearts])
  /\ Hand_init [PyCard (mkCard ace hearts); PyNone]
     = Raise (TypeError "Not a valid Card type object.").
Proof.
  split.
  - destruct (proj1 (Hand_init_iff_Cards [PyCard (mkCard ace hearts)]) eq_refl)
      as (cards & Hcards & Hinit).
    rewrite Hinit. destruct cards as [|c [|c' cards]]; try discriminate.
    injection Hcards as <-. reflexivity.
  - exact (proj2 (Hand_init_iff_Cards [PyCard (mkCard ace hearts); PyNone])
             eq_refl).
Defined.

(** X3. The value of a hand does not depend on the order of its cards. *)
Theorem Hand_value_perm (h1 h2 : Hand) :
  Hand_cards h1 ≡ₚ Hand_cards h2 -> Hand_value h1 = Hand_value h2.
Proof.
  intros Hp. rewrite !Hand_value_points. by rewrite (points_perm _ _ Hp).
Qed.

Lemma Hand_value_perm_witness :
  Hand_value (mkHand [mkCard seven hearts; mkCard two clubs; mkCard king spades])
  = Hand_value (mkHand [mkCard king spades; mkCard seven hearts; mkCard two clubs]).
Proof.
  apply Hand_value_perm. simpl.
  change [mkCard seven hearts; mkCard two clubs; mkCard king spades]
    with ([mkCard seven hearts; mkCard two clubs] ++ [mkCard king spades]).
  apply Permutation_app_comm.
Defined.

(** X4. [add_cards] of cards appends them, and the new value is the old
    value plus the point values of the new cards, modulo 10. *)
Theorem Hand_add_cards_value (cards : list Card) (h : Hand) :
  exists h' : Hand,
    Hand_add_cards (PyCard <$> cards) h = (Ok tt, h')
    /\ Hand_cards h' = Hand_cards h ++ cards
    /\ Hand_value h' = (Hand_value h + points cards) mod 10.
Proof.
  eexists. split; [apply Hand_add_cards_Cards|]. split; [done|].
  rewrite !Hand_value_points. simpl. rewrite points_app.
  by rewrite Z.add_mod_idemp_l.
Qed.

(** X5. A natural never asks for a third card: [Punto.draw_third()] is
    false on it, and [Banco.draw_third] does not return true on it,
    whatever its argument. *)
Theorem natural_never_draws (h : Hand) (third : pyobj) :
  Hand_is_natural h = true ->
  Punto_draw_third h = false
  /\ Banco_draw_third h third <> Ok true
  /\ Banco_draw_third h PyNone = Ok false
  /\ forall c : Card, Banco_draw_third h (PyCard c) = Ok false.
Proof.
  unfold Hand_is_natural, Punto_draw_third, Banco_draw_third.
  intros Hnat. apply andb_prop in Hnat as [Hlen Hv].
  rewrite Hlen.
  replace ((0 <=? Hand_value h) && (Hand_value h <=? 5)) with false by lia.
  replace ((0 <=? Hand_value h) && (Hand_value h <=? 2)) with false by lia.
  replace ((3 <=? Hand_value h) && (Hand_value h <=? 6)) with false by lia.
  split; [done|]. split; [|done].
  destruct (truthy third); [|done]. by destruct third.
Qed.

Lemma natural_never_draws_witness :
  Hand_is_natural (mkHand [mkCard seven hearts; mkCard two clubs]) = true
  /\ Punto_draw_third (mkHand [mkCard seven hearts; mkCard two clubs]) = false
  /\ Banco_draw_third (mkHand [mkCard seven hearts; mkCard two clubs])
       (PyCard (mkCard six spades)) = Ok false.
Proof.
  assert (Hand_is_natural (mkHand [mkCard seven hearts; mkCard two clubs]) = true)
    as Hnat by reflexivity.
  split; [exact Hnat|].
  destruct (natural_never_draws (mkHand [mkCard seven hearts; mkCard two clubs])
              PyNone Hnat) as (Hp & _ & _ & Hb).
  split; [exact Hp | exact (Hb (mkCard six spades))].
Defined.

(** X6. When punto has not drawn, banco follows punto's own rule:
    [Banco.draw_third()] without a card is [Punto.draw_third()] of the same
    hand. *)
Theorem Banco_draw_third_None_is_Punto (h : Hand) :
  Banco_draw_third h PyNone = Ok (Punto_draw_third h).
Proof.
  unfold Banco_draw_third, Punto_draw_third.
  case_bool_decide; [|done]. simpl. by destruct (_ && _).
Qed.

(** X7. The argument of [Banco.draw_third] is tested for truth before its
    type: on a hand of 2 cards, [None], 0 and the empty string stand for no
    card, and any other object that is not a card raises [TypeError]; on a
    hand that has not 2 cards the argument is not looked at. *)
Theorem Banco_draw_third_argument (h : Hand) (third : pyobj) :
  (length (Hand_cards h) = 2%nat -> is_Card third = false ->
   Banco_draw_third h third =
   if truthy third
   then Raise (TypeError "Punto third card not a Card type object.")
   else Banco_draw_third h PyNone)
  /\ (length (Hand_cards h) <> 2%nat -> Banco_draw_third h third = Ok false).
Proof.
  unfold Banco_draw_third. split.
  - intros Hlen Hc. rewrite bool_decide_true by done.
    by destruct third as [|z|s|c].
  - intros Hlen. by rewrite bool_decide_false.
Qed.

Lemma Banco_draw_third_argument_witness :
  Banco_draw_third (mkHand [mkCard two hearts; mkCard ace clubs]) (PyInt 5)
  = Raise (TypeError "Punto third card not a Card type object.")
  /\ Banco_draw_third (mkHand [mkCard two hearts; mkCard ace clubs]) (PyInt 0)
     = Ok true
  /\ Banco_draw_third (mkHand [mkCard two hearts]) (PyInt 5) = Ok false.
Proof.
  split; [|split].
  - exact (proj1 (Banco_draw_third_argument
                    (mkHand [mkCard two hearts; mkCard ace clubs]) (PyInt 5))
             eq_refl eq_refl).
  - exact (proj1 (Banco_draw_third_argument
                    (mkHand [mkCard two hearts; mkCard ace clubs]) (PyInt 0))
             eq_refl eq_refl).
  - apply (proj2 (Banco_draw_third_argument (mkHand [mkCard two hearts])
                    (PyInt 5))).
    simpl. lia.
Defined.

(** ** More on the shoe *)

Section ShoeMore.
Context `{Random}.

(** The body of the loop of [draw_cards], which gives the card drawn. *)
Definition draw_step : M (Shoe * Env) Card :=
  let! empty := gets (fun st => bool_decide (length (Shoe_cards st.1) = 0%nat)) in
  when empty (Shoe_add_decks None >>> print "Refilling shoe...") >>>
  Shoe_pop.

Lemma draw_loop_S (n : nat) (acc : list Card) (st : Shoe * Env) :
  draw_loop (S n) acc st =
  match draw_step st with
  | (Ok c, st') => draw_loop n (acc ++ [c]) st'
  | (Raise x, st') => (Raise x, st')
  end.
Proof.
  unfold draw_step. simpl. unfold bind, gets.
  destruct (when _ _ st) as [[[]|x] st1]; [|done].
  by destruct (Shoe_pop st1) as [[c|x] st2].
Qed.

Lemma draw_loop_acc (n : nat) :
  forall (acc : list Card) (st : Shoe * Env),
    draw_loop n acc st =
    match draw_loop n [] st with
    | (Ok drawn, st') => (Ok (acc ++ drawn), st')
    | (Raise x, st') => (Raise x, st')
    end.
Proof.
  induction n as [|n IH]; intros acc st.
  - simpl. unfold ret. by rewrite app_nil_r.
  - rewrite !draw_loop_S. destruct (draw_step st) as [[c|x] st1]; [|done].
    rewrite (IH (acc ++ [c])), (IH ([] ++ [c])).
    destruct (draw_loop n [] st1) as [[drawn|x] st2]; [|done].
    by rewrite <- app_assoc.
Qed.

Lemma draw_loop_add (a b : nat) :
  forall (acc : list Card) (st : Shoe * Env),
    draw_loop (a + b) acc st =
    match draw_loop a acc st with
    | (Ok acc', st') => draw_loop b acc' st'
    | (Raise x, st') => (Raise x, st')
    end.
Proof.
  induction a as [|a IH]; intros acc st; [done|].
  change (S a + b)%nat with (S (a + b)). rewrite !draw_loop_S.
  destruct (draw_step st) as [[c|x] st1]; [|done]. apply IH.
Qed.

(** X8. Drawing composes: [draw_cards(a + b)] does what [draw_cards(a)]
    followed by [draw_cards(b)] does, refills and errors included, and
    returns the cards of the first followed by those of the second.  A
    number of cards that is 0 or negative draws nothing and changes
    nothing. *)
Theorem Shoe_draw_cards_add (a b : Z) (st : Shoe * Env) :
  (a <= 0 -> Shoe_draw_cards a st = (Ok [], st))
  /\ (0 <= a -> 0 <= b ->
      Shoe_draw_cards (a + b) st =
      (let! first := Shoe_draw_cards a in
       let! second := Shoe_draw_cards b in
       ret (first ++ second)) st).
Proof.
  unfold Shoe_draw_cards. split.
  - intros Ha. by replace (Z.to_nat a) with 0%nat by lia.
  - intros Ha Hb. rewrite Z2Nat.inj_add by done.
    rewrite draw_loop_add. unfold bind.
    destruct (draw_loop (Z.to_nat a) [] st) as [[first|x] st1]; [|done].
    rewrite draw_loop_acc.
    by destruct (draw_loop (Z.to_nat b) [] st1) as [[second|x] st2].
Qed.

(** X9. [add_decks(k)]: 0 stands for the default, the number of decks of
    the shoe; the cards of that many decks join those of the shoe and the
    whole is shuffled; a negative [k] adds nothing, so the shoe is only
    shuffled.  The number of decks of the shoe and the output stay. *)
Theorem Shoe_add_decks_arg (k : Z) (s : Shoe) (e : Env) :
  Shoe_add_decks (Some 0) (s, e) = Shoe_add_decks None (s, e)
  /\ exists (s' : Shoe) (e' : Env),
       Shoe_add_decks (Some k) (s, e) = (Ok tt, (s', e'))
       /\ Shoe_num_decks s' = Shoe_num_decks s
       /\ Env_stdout e' = Env_stdout e
       /\ Shoe_cards s' ≡ₚ
          Shoe_cards s ++ new_decks (if k =? 0 then Shoe_num_decks s else k)
       /\ (k < 0 -> Shoe_cards s' ≡ₚ Shoe_cards s)
       /\ forall c : Card,
            Z.of_nat (count_occ Card_eq_dec (Shoe_cards s') c)
            = Z.of_nat (count_occ Card_eq_dec (Shoe_cards s) c)
              + Z.max 0 (if k =? 0 then Shoe_num_decks s else k).
Proof.
  split; [done|]. unfold Shoe_add_decks.
  set (n := if k =? 0 then Shoe_num_decks s else k).
  pose proof (shuffle_perm (Shoe_cards s ++ new_decks n) (Env_rng e)) as Hp.
  destruct (shuffle (Shoe_cards s ++ new_decks n) (Env_rng e)) as [cards g].
  simpl in Hp. eexists _, _. split; [done|]. simpl.
  split; [done|]. split; [done|]. split; [done|]. split.
  - intros Hk. rewrite Hp. subst n.
    replace (k =? 0) with false by lia.
    unfold new_decks. replace (Z.to_nat k) with 0%nat by lia.
    simpl. by rewrite app_nil_r.
  - intros c.
    rewrite (proj1 (Permutation_count_occ Card_eq_dec _ _) Hp c).
    rewrite count_occ_app, count_new_decks. lia.
Qed.

(** The cards in a draw with refills: none is lost, none is made. *)
Lemma draw_loop_cards (n : nat) :
  forall (s : Shoe) (e : Env) (acc : list Card),
    1 <= Shoe_num_decks s ->
    exists (drawn : list Card) (s' : Shoe) (e' : Env) (refills : nat),
      draw_loop n acc (s, e) = (Ok (acc ++ drawn), (s', e'))
      /\ Env_stdout e' =
         Env_stdout e ++ replicate refills "Refilling shoe..."%string
      /\ Shoe_cards s' ++ reverse drawn ≡ₚ
         Shoe_cards s
         ++ mjoin (replicate refills (new_decks (Shoe_num_decks s)))
      /\ ((n <= length (Shoe_cards s))%nat -> refills = 0%nat /\ e' = e).
Proof.
  induction n as [|n IH]; intros [nd cards] e acc Hnd; simpl in Hnd.
  - exists [], (mkShoe nd cards), e, 0%nat. simpl.
    rewrite !app_nil_r. by unfold ret.
  - destruct (decide (cards = [])) as [->|Hne].
    + pose proof (shuffle_perm (new_decks nd) (Env_rng e)) as Hp.
      pose proof (Permutation_length Hp) as Hlen.
      rewrite length_new_decks in Hlen.
      destruct (snoc_of_length (shuffle (new_decks nd) (Env_rng e)).1)
        as (l & x & Hl); [lia|].
      rewrite (draw_loop_S_empty n acc nd l x e Hl).
      destruct (IH (mkShoe nd l)
                  (mkEnv (shuffle (new_decks nd) (Env_rng e)).2
                         (Env_stdout e ++ ["Refilling shoe..."%string]))
                  (acc ++ [x]) Hnd)
        as (drawn & s' & e' & k & Hrun & Hout & Hcards & _).
      simpl in *.
      exists (x :: drawn), s', e', (S k). rewrite Hrun.
      split; [by rewrite <- app_assoc|].
      split; [by rewrite Hout, <- app_assoc|].
      split; [|lia].
      assert (new_decks nd ≡ₚ l ++ [x]) as HD
        by (rewrite <- Hl; symmetry; exact Hp).
      rewrite reverse_cons, app_assoc, Hcards.
      change ([] ++ mjoin (replicate (S k) (new_decks nd)))
        with (new_decks nd ++ mjoin (replicate k (new_decks nd))).
      etrans; [|apply Permutation_app_tail; symmetry; exact HD].
      rewrite <- !app_assoc. apply Permutation_app_head, Permutation_app_comm.
    + destruct (snoc_of_length cards) as (l & x & ->);
        [destruct cards; simpl; [done|lia]|].
      rewrite draw_loop_S_snoc.
      destruct (IH (mkShoe nd l) e (acc ++ [x]) Hnd)
        as (drawn & s' & e' & k & Hrun & Hout & Hcards & Hnone).
      simpl in *.
      exists (x :: drawn), s', e', k. rewrite Hrun.
      split; [by rewrite <- app_assoc|]. split; [done|]. split.
      * rewrite reverse_cons, app_assoc, Hcards.
        rewrite <- !app_assoc. apply Permutation_app_head, Permutation_app_comm.
      * rewrite length_app; simpl. intros Hle. apply Hnone. lia.
Qed.

Lemma count_join_replicate (k : nat) (l : list Card) (c : Card) :
  count_occ Card_eq_dec (mjoin (replicate k l)) c
  = (k * count_occ Card_eq_dec l c)%nat.
Proof.
  induction k as [|k IH]; [done|].
  change (mjoin (replicate (S k) l)) with (l ++ mjoin (replicate k l)).
  rewrite count_occ_app, IH. lia.
Qed.

(** X10. [draw_cards] neither loses nor makes a card.  On a shoe of at
    least one deck and for [n >= 0], the cards left with the cards drawn
    are, up to their order, the cards the shoe held with one set of decks
    for every refill; so every card occurs, among the cards left and the
    cards drawn, as often as it did in the shoe plus the number of decks
    for every refill. *)
Theorem Shoe_draw_cards_conserves (s : Shoe) (e : Env) (n : Z) :
  1 <= Shoe_num_decks s ->
  0 <= n ->
  exists (drawn : list Card) (s' : Shoe) (e' : Env) (refills : nat),
    Shoe_draw_cards n (s, e) = (Ok drawn, (s', e'))
    /\ Env_stdout e' =
       Env_stdout e ++ replicate refills "Refilling shoe..."%string
    /\ Shoe_cards s' ++ reverse drawn ≡ₚ
       Shoe_cards s ++ mjoin (replicate refills (new_decks (Shoe_num_decks s)))
    /\ forall c : Card,
         Z.of_nat (count_occ Card_eq_dec (Shoe_cards s') c)
         + Z.of_nat (count_occ Card_eq_dec drawn c)
         = Z.of_nat (count_occ Card_eq_dec (Shoe_cards s) c)
           + Z.of_nat refills * Shoe_num_decks s.
Proof.
  intros Hnd Hn. unfold Shoe_draw_cards.
  destruct (draw_loop_cards (Z.to_nat n) s e [] Hnd)
    as (drawn & s' & e' & k & Hrun & Hout & Hcards & _).
  exists drawn, s', e', k. split; [done|]. split; [done|]. split; [done|].
  intros c.
  pose proof (proj1 (Permutation_count_occ Card_eq_dec _ _) Hcards c) as Hc.
  rewrite !count_occ_app, count_join_replicate, count_new_decks in Hc.
  change (reverse drawn) with (rev_append drawn []) in Hc.
  rewrite rev_append_rev, app_nil_r, count_occ_rev in Hc. nia.
Qed.

(** X11. From a shoe of [deck_count] decks as the constructor builds it,
    up to [deck_count * 52] cards are drawn without a refill and without
    use of the generator, and no card comes more than [deck_count] times:
    the cards drawn and the cards left hold every card [deck_count]
    times. *)
Theorem Shoe_draw_cards_full_shoe (s : Shoe) (e : Env) (n : Z) :
  1 <= Shoe_num_decks s ->
  holds_decks (Shoe_num_decks s) (Shoe_cards s) ->
  0 <= n <= Shoe_num_decks s * 52 ->
  exists (drawn : list Card) (s' : Shoe),
    Shoe_draw_cards n (s, e) = (Ok drawn, (s', e))
    /\ forall c : Card,
         Z.of_nat (count_occ Card_eq_dec drawn c)
         + Z.of_nat (count_occ Card_eq_dec (Shoe_cards s') c)
         = Shoe_num_decks s
         /\ Z.of_nat (count_occ Card_eq_dec drawn c) <= Shoe_num_decks s.
Proof.
  intros Hnd (_ & Hlen & Hcount) Hn. unfold Shoe_draw_cards.
  destruct (draw_loop_cards (Z.to_nat n) s e [] Hnd)
    as (drawn & s' & e' & k & Hrun & _ & Hcards & Hnone).
  destruct Hnone as [-> ->]; [lia|].
  exists drawn, s'. split; [done|]. intros c.
  pose proof (proj1 (Permutation_count_occ Card_eq_dec _ _) Hcards c) as Hc.
  simpl in Hc. rewrite app_nil_r, count_occ_app in Hc.
  change (reverse drawn) with (rev_append drawn []) in Hc.
  rewrite rev_append_rev, app_nil_r, count_occ_rev in Hc.
  specialize (Hcount c). lia.
Qed.

End ShoeMore.

(** The nested loops of [add_decks] build, for one deck, 52 cards that are
    pairwise distinct, and every card is among them. *)
Lemma one_deck_NoDup : NoDup one_deck.
Proof.
  apply NoDup_ListNoDup, (proj2 (NoDup_count_occ Card_eq_dec one_deck)).
  intros c. rewrite count_one_deck. lia.
Qed.

Lemma one_deck_all (c : Card) : c ∈ one_deck.
Proof.
  apply list_elem_of_In, (count_occ_In Card_eq_dec).
  rewrite count_one_deck. lia.
Qed.

(** ** More on the game *)

(** Runs the steps of a method of the game that do not depend on the
    cards. *)
Ltac run_game :=
  repeat (progress
    (unfold bind, gets, when, raise, ret, lift, the_punto, the_banco,
       on_shoe, punto_add_cards, banco_add_cards, set_punto, set_banco,
       set_game_running, modify, card_at; simpl)).

Section GameMore.
Context `{Random}.

#[local] Arguments Hand_is_natural : simpl never.
#[local] Arguments Punto_draw_third : simpl never.
#[local] Arguments Banco_draw_third : simpl never.
#[local] Arguments Shoe_draw_cards : simpl never.
#[local] Arguments Card_str : simpl never.
#[local] Arguments Hand_value : simpl never.

(** [draw_thirds()] on a running round without a natural, case by case. *)
Lemma Game_draw_thirds_cases (g : Game) (e : Env) (p b : Hand) :
  Game_game_running g = true ->
  Game_punto g = Some p ->
  Game_banco g = Some b ->
  Hand_is_natural p || Hand_is_natural b = false ->
  1 <= Shoe_num_decks (Game_shoe g) ->
  if Punto_draw_third p then
    exists (c1 : Card) (s1 : Shoe) (e1 : Env) (draw : bool),
      Shoe_draw_cards 1 (Game_shoe g, e) = (Ok [c1], (s1, e1))
      /\ Shoe_num_decks s1 = Shoe_num_decks (Game_shoe g)
      /\ Banco_draw_third b (PyCard c1) = Ok draw
      /\ if draw then
           exists (c2 : Card) (s2 : Shoe) (e2 : Env),
             Shoe_draw_cards 1 (s1, e1) = (Ok [c2], (s2, e2))
             /\ Shoe_num_decks s2 = Shoe_num_decks (Game_shoe g)
             /\ Game_draw_thirds (g, e) =
                (Ok [["punto"%string; Card_str c1];
                     ["banco"%string; Card_str c2]],
                 (mkGame false
                    (Some (mkHand (Hand_cards p ++ [c1])))
                    (Some (mkHand (Hand_cards b ++ [c2])))
                    s2 (Game_num_decks g), e2))
         else
           Game_draw_thirds (g, e) =
           (Ok [["punto"%string; Card_str c1]],
            (mkGame false (Some (mkHand (Hand_cards p ++ [c1]))) (Some b)
                    s1 (Game_num_decks g), e1))
  else
    exists draw : bool,
      Banco_draw_third b PyNone = Ok draw
      /\ if draw then
           exists (c2 : Card) (s2 : Shoe) (e2 : Env),
             Shoe_draw_cards 1 (Game_shoe g, e) = (Ok [c2], (s2, e2))
             /\ Shoe_num_decks s2 = Shoe_num_decks (Game_shoe g)
             /\ Game_draw_thirds (g, e) =
                (Ok [["banco"%string; Card_str c2]],
                 (mkGame false (Some p)
                    (Some (mkHand (Hand_cards b ++ [c2])))
                    s2 (Game_num_decks g), e2))
         else
           Game_draw_thirds (g, e) = (Ok [], (closed g, e)).
Proof.
  destruct g as [r pu ba sh nd]; simpl. intros -> -> -> Hnat Hnd.
  apply orb_false_elim in Hnat as [Hnp Hnb].
  unfold Game_draw_thirds, Game_is_natural, closed. run_game.
  rewrite Hnp; run_game. rewrite Hnb; run_game.
  destruct (Punto_draw_third p) eqn:HP; run_game.
  - pose proof (Punto_draw_third_true_length p HP) as Hlp.
    destruct (Shoe_draw_one sh e Hnd) as (c1 & s1 & e1 & Hd1 & Hn1).
    destruct (Banco_draw_third_Card_total b c1) as [draw Hdraw].
    exists c1, s1, e1, draw. do 3 (split; [done|]).
    rewrite Hd1; run_game. repeat (rewrite (third_card _ c1 Hlp); run_game).
    rewrite Hdraw. destruct draw; run_game; [|done].
    pose proof (Banco_draw_third_true_length b _ Hdraw) as Hlb.
    rewrite <- Hn1 in Hnd.
    destruct (Shoe_draw_one s1 e1 Hnd) as (c2 & s2 & e2 & Hd2 & Hn2).
    exists c2, s2, e2. split; [done|]. split; [congruence|].
    rewrite Hd2; run_game. by repeat (rewrite (third_card _ c2 Hlb); run_game).
  - destruct (Banco_draw_third_None_total b) as [draw Hdraw].
    exists draw. split; [done|].
    rewrite Hdraw. destruct draw; run_game; [|done].
    pose proof (Banco_draw_third_true_length b _ Hdraw) as Hlb.
    destruct (Shoe_draw_one sh e Hnd) as (c2 & s2 & e2 & Hd2 & Hn2).
    exists c2, s2, e2. do 2 (split; [done|]).
    rewrite Hd2; run_game. by repeat (rewrite (third_card _ c2 Hlb); run_game).
Qed.

(** What [draw_thirds()] leaves on a running round without a natural. *)
Lemma Game_draw_thirds_post (g : Game) (e : Env) (p b : Hand) :
  Game_game_running g = true ->
  Game_punto g = Some p ->
  Game_banco g = Some b ->
  Hand_is_natural p || Hand_is_natural b = false ->
  1 <= Shoe_num_decks (Game_shoe g) ->
  exists (records : list (list string)) (p' b' : Hand) (s' : Shoe) (e' : Env),
    Game_draw_thirds (g, e) =
    (Ok records, (mkGame false (Some p') (Some b') s' (Game_num_decks g), e'))
    /\ Shoe_num_decks s' = Shoe_num_decks (Game_shoe g)
    /\ (p' = p \/ length (Hand_cards p) = 2%nat
                  /\ exists c, Hand_cards p' = Hand_cards p ++ [c])
    /\ (b' = b \/ length (Hand_cards b) = 2%nat
                  /\ exists c, Hand_cards b' = Hand_cards b ++ [c])
    /\ (length records + length (Hand_cards p) + length (Hand_cards b)
        = length (Hand_cards p') + length (Hand_cards b'))%nat.
Proof.
  intros Hr Hp Hb Hnat Hnd.
  pose proof (Game_draw_thirds_cases g e p b Hr Hp Hb Hnat Hnd) as Hc.
  destruct (Punto_draw_third p) eqn:HP.
  - pose proof (Punto_draw_third_true_length p HP) as Hlp.
    destruct Hc as (c1 & s1 & e1 & draw & _ & Hn1 & Hdraw & Hc).
    destruct draw.
    + pose proof (Banco_draw_third_true_length b _ Hdraw) as Hlb.
      destruct Hc as (c2 & s2 & e2 & _ & Hn2 & ->).
      eexists _, _, _, _, _. split; [done|]. split; [done|].
      split; [right; eauto|]. split; [right; eauto|].
      simpl. rewrite !length_app. simpl. lia.
    + rewrite Hc. eexists _, _, _, _, _. split; [done|]. split; [done|].
      split; [right; eauto|]. split; [by left|].
      simpl. rewrite !length_app. simpl. lia.
  - destruct Hc as (draw & Hdraw & Hc). destruct draw.
    + pose proof (Banco_draw_third_true_length b _ Hdraw) as Hlb.
      destruct Hc as (c2 & s2 & e2 & _ & Hn2 & ->).
      eexists _, _, _, _, _. split; [done|]. split; [done|].
      split; [by left|]. split; [right; eauto|].
      simpl. rewrite !length_app. simpl. lia.
    + rewrite Hc. unfold closed. rewrite Hp, Hb.
      eexists _, _, _, _, _. split; [done|]. split; [done|].
      split; [by left|]. split; [by left|]. simpl. lia.
Qed.

(** The read accessors [punto_value], [banco_value] and [num_decks]: a
    hand object is true, [None] is not. *)
Definition Game_punto_value : M (Game * Env) Z :=
  fun st =>
    match Game_punto st.1 with
    | None => (Raise (ValueError "No hands were dealt."), st)
    | Some h => (Ok (Hand_value h), st)
    end.

Definition Game_banco_value : M (Game * Env) Z :=
  fun st =>
    match Game_banco st.1 with
    | None => (Raise (ValueError "No hands were dealt."), st)
    | Some h => (Ok (Hand_value h), st)
    end.

Definition Game_num_decks_prop : M (Game * Env) Z :=
  gets (fun st => Shoe_num_decks (Game_shoe st.1)).

(** [deal_hands()] on a game that is not running. *)
Lemma Game_deal_hands_run (g : Game) (e : Env) :
  Game_game_running g = false ->
  1 <= Shoe_num_decks (Game_shoe g) ->
  exists (c1 c2 c3 c4 : Card) (s' : Shoe) (e' : Env),
    Shoe_draw_cards 4 (Game_shoe g, e) = (Ok [c1; c2; c3; c4], (s', e'))
    /\ Shoe_num_decks s' = Shoe_num_decks (Game_shoe g)
    /\ Game_deal_hands (g, e) =
       (Ok tt,
        (mkGame true (Some (mkHand [c1; c2])) (Some (mkHand [c3; c4])) s'
                (Game_num_decks g), e')).
Proof.
  destruct g as [r pu ba sh nd]; simpl. intros -> Hnd.
  destruct (draw_loop_spec 2 sh e [] Hnd)
    as (d1 & s1 & e1 & k1 & Hrun1 & Hd1 & Hn1 & _).
  destruct d1 as [|c1 [|c2 [|]]]; try discriminate.
  rewrite <- Hn1 in Hnd.
  destruct (draw_loop_spec 2 s1 e1 [] Hnd)
    as (d2 & s2 & e2 & k2 & Hrun2 & Hd2 & Hn2 & _).
  destruct d2 as [|c3 [|c4 [|]]]; try discriminate.
  exists c1, c2, c3, c4, s2, e2. split; [|split; [congruence|]].
  - unfold Shoe_draw_cards. change (Z.to_nat 4) with (2 + 2)%nat.
    rewrite draw_loop_add, Hrun1. simpl app.
    rewrite draw_loop_acc, Hrun2. done.
  - assert (Shoe_draw_cards 2 (sh, e) = (Ok [c1; c2], (s1, e1))) as Hfirst
      by exact Hrun1.
    assert (Shoe_draw_cards 2 (s1, e1) = (Ok [c3; c4], (s2, e2))) as Hsecond
      by exact Hrun2.
    unfold Game_deal_hands, Punto_init, Banco_init. run_game.
    rewrite Hfirst; run_game. rewrite Hsecond; run_game. done.
Qed.

(** [game_result()] gives back the state it was given, whatever it
    returns. *)
Lemma Game_game_result_frame (st : Game * Env) : (Game_game_result st).2 = st.
Proof.
  destruct st as [[r pu ba sh nd] e]. unfold Game_game_result. run_game.
  destruct r; run_game; [done|].
  destruct pu as [p|]; run_game; [|done].
  destruct ba as [b|]; run_game; [|done].
  destruct (Hand_value p >? Hand_value b); run_game; [done|].
  by destruct (Hand_value p <? Hand_value b).
Qed.

(** [draw_thirds()] on a running round with a natural. *)
Lemma Game_draw_thirds_natural (g : Game) (e : Env) (p b : Hand) :
  Game_game_running g = true ->
  Game_punto g = Some p ->
  Game_banco g = Some b ->
  Hand_is_natural p || Hand_is_natural b = true ->
  Game_draw_thirds (g, e) =
  (Raise (GameError "Can't draw third cards when there is a natural."),
   (closed g, e)).
Proof.
  intros Hr Hp Hb Hnat.
  pose proof (Game_is_natural_running g e p b Hr Hp Hb) as E.
  rewrite Hnat in E.
  unfold Game_draw_thirds, bind at 1 2, gets, when, ret; simpl.
  rewrite Hr; simpl. unfold bind at 1. by rewrite E.
Qed.

Lemma bind_Ok {S A B} (m : M S A) (k : A -> M S B) (s s' : S) (a : A) :
  m s = (Ok a, s') -> bind m k s = k a s'.
Proof. unfold bind. by intros ->. Qed.

Lemma bind_Raise {S A B} (m : M S A) (k : A -> M S B) (s s' : S) (x : exn) :
  m s = (Raise x, s') -> bind m k s = (Raise x, s').
Proof. unfold bind. by intros ->. Qed.

Lemma Game_deal_hands_running (g : Game) (e : Env) :
  Game_game_running g = true ->
  Game_deal_hands (g, e) = (Raise (GameError "Game is running"), (g, e)).
Proof. intros Hr. unfold Game_deal_hands. run_game. by rewrite Hr. Qed.

Lemma Game_is_natural_not_running (g : Game) (e : Env) :
  Game_game_running g = false ->
  Game_is_natural (g, e) = (Raise (GameError "Game is not running."), (g, e)).
Proof. intros Hr. unfold Game_is_natural. run_game. by rewrite Hr. Qed.

(** X12. [deal_hands()] on a game that is not running, with a shoe of at
    least one deck, takes from the shoe what [draw_cards(4)] takes: the
    first two cards are punto's, the next two banco's, and the round is
    running.  The hands of the round before are dropped. *)
Theorem Game_deal_hands_draws (g : Game) (e : Env) :
  Game_game_running g = false ->
  1 <= Shoe_num_decks (Game_shoe g) ->
  exists (c1 c2 c3 c4 : Card) (s' : Shoe) (e' : Env),
    Shoe_draw_cards 4 (Game_shoe g, e) = (Ok [c1; c2; c3; c4], (s', e'))
    /\ Game_deal_hands (g, e) =
       (Ok tt,
        (mkGame true (Some (mkHand [c1; c2])) (Some (mkHand [c3; c4])) s'
                (Game_num_decks g), e')).
Proof.
  intros Hr Hnd.
  destruct (Game_deal_hands_run g e Hr Hnd)
    as (c1 & c2 & c3 & c4 & s' & e' & Hdraw & _ & Hdeal).
  by exists c1, c2, c3, c4, s', e'.
Qed.

(** X13. A method called in the wrong phase raises and changes nothing:
    [deal_hands()] and [game_result()] on a running round, [is_natural()]
    and [draw_thirds()] on a round that is not running.  Before the first
    deal the accessors of the values raise [ValueError], and
    [game_result()] raises [AttributeError], not [GameError]. *)
Theorem Game_wrong_phase (g : Game) (e : Env) :
  (Game_game_running g = true ->
   Game_deal_hands (g, e) = (Raise (GameError "Game is running"), (g, e))
   /\ Game_game_result (g, e) = (Raise (GameError "Game is running."), (g, e)))
  /\ (Game_game_running g = false ->
      Game_is_natural (g, e)
      = (Raise (GameError "Game is not running."), (g, e))
      /\ Game_draw_thirds (g, e)
         = (Raise (GameError "Game is not running."), (g, e)))
  /\ (Game_game_running g = false -> Game_punto g = None ->
      Game_banco g = None ->
      Game_punto_value (g, e) = (Raise (ValueError "No hands were dealt."), (g, e))
      /\ Game_banco_value (g, e)
         = (Raise (ValueError "No hands were dealt."), (g, e))
      /\ exists msg : string,
           Game_game_result (g, e) = (Raise (AttributeError msg), (g, e))).
Proof.
  split; [|split].
  - intros Hr. split; [by apply Game_deal_hands_running|].
    unfold Game_game_result. run_game. by rewrite Hr.
  - intros Hr. split; [by apply Game_is_natural_not_running|].
    by apply Game_draw_thirds_not_running.
  - intros Hr Hp Hb. unfold Game_punto_value, Game_banco_value; simpl.
    rewrite Hp, Hb. do 2 (split; [done|]).
    unfold Game_game_result. run_game. rewrite Hr; run_game.
    rewrite Hp. eauto.
Qed.

(** X14. On a running round, [is_natural()] returns whether punto's hand
    or banco's hand is a natural; it closes the round when it returns
    true and changes nothing when it returns false. *)
Theorem Game_is_natural_spec (g : Game) (e : Env) (p b : Hand) :
  Game_game_running g = true ->
  Game_punto g = Some p ->
  Game_banco g = Some b ->
  exists natural : bool,
    natural = Hand_is_natural p || Hand_is_natural b
    /\ Game_is_natural (g, e) = (Ok natural, (if natural then closed g else g, e)).
Proof.
  intros Hr Hp Hb. eexists. split; [done|].
  rewrite (Game_is_natural_running g e p b Hr Hp Hb).
  by destruct (Hand_is_natural p || Hand_is_natural b).
Qed.

(** X15. [draw_thirds()] on a dealt round without a natural closes the
    round with hands of 2 or 3 cards, and returns one record for every
    card that a hand has taken, so at most 2; a second call raises the
    error of a game that is not running. *)
Theorem Game_draw_thirds_closes (g : Game) (e : Env) (p b : Hand) :
  Game_game_running g = true ->
  Game_punto g = Some p ->
  Game_banco g = Some b ->
  length (Hand_cards p) = 2%nat ->
  length (Hand_cards b) = 2%nat ->
  Hand_is_natural p || Hand_is_natural b = false ->
  1 <= Shoe_num_decks (Game_shoe g) ->
  exists (records : list (list string)) (g' : Game) (e' : Env) (p' b' : Hand),
    Game_draw_thirds (g, e) = (Ok records, (g', e'))
    /\ Game_game_running g' = false
    /\ Game_punto g' = Some p' /\ Game_banco g' = Some b'
    /\ (2 <= length (Hand_cards p') <= 3)%nat
    /\ (2 <= length (Hand_cards b') <= 3)%nat
    /\ (length records + 4
        = length (Hand_cards p') + length (Hand_cards b'))%nat
    /\ Game_draw_thirds (g', e')
       = (Raise (GameError "Game is not running."), (g', e')).
Proof.
  intros Hr Hp Hb Hlp Hlb Hnat Hnd.
  destruct (Game_draw_thirds_post g e p b Hr Hp Hb Hnat Hnd)
    as (records & p' & b' & s' & e' & Hrun & _ & Hp' & Hb' & Hlen).
  eexists records, _, e', p', b'. split; [exact Hrun|]. simpl.
  do 3 (split; [done|]).
  assert (length (Hand_cards p') = 2 \/ length (Hand_cards p') = 3)%nat
    by (destruct Hp' as [->|[_ [c ->]]];
        [by left | right; rewrite length_app; simpl; lia]).
  assert (length (Hand_cards b') = 2 \/ length (Hand_cards b') = 3)%nat
    by (destruct Hb' as [->|[_ [c ->]]];
        [by left | right; rewrite length_app; simpl; lia]).
  split; [lia|]. split; [lia|]. split; [lia|].
  by apply Game_draw_thirds_not_running.
Qed.

(** X16. Banco stands in [draw_thirds()] when punto has drawn a third
    card and banco's two cards are worth 7, or are worth 3 while punto's
    third card is worth 8: punto's card is the only record and banco's
    hand is as it was. *)
Theorem Game_draw_thirds_banco_stands
    (g : Game) (e : Env) (p b : Hand) (c1 : Card) (s1 : Shoe) (e1 : Env) :
  Game_game_running g = true ->
  Game_punto g = Some p ->
  Game_banco g = Some b ->
  Hand_is_natural p || Hand_is_natural b = false ->
  1 <= Shoe_num_decks (Game_shoe g) ->
  Punto_draw_third p = true ->
  Shoe_draw_cards 1 (Game_shoe g, e) = (Ok [c1], (s1, e1)) ->
  length (Hand_cards b) = 2%nat ->
  Hand_value b = 7 \/ Hand_value b = 3 /\ Card_value c1 = 8 ->
  Game_draw_thirds (g, e) =
  (Ok [["punto"%string; Card_str c1]],
   (mkGame false (Some (mkHand (Hand_cards p ++ [c1]))) (Some b) s1
           (Game_num_decks g), e1)).
Proof.
  intros Hr Hp Hb Hnat Hnd HP Hd1 Hlb Hcase.
  pose proof (Game_draw_thirds_cases g e p b Hr Hp Hb Hnat Hnd) as Hc.
  rewrite HP in Hc.
  destruct Hc as (c & s & e' & draw & Hd & _ & Hdraw & Hc).
  rewrite Hd1 in Hd. injection Hd as <- <- <-.
  assert (Banco_draw_third b (PyCard c1) = Ok false) as Hstand.
  { unfold Banco_draw_third. rewrite bool_decide_true by done.
    destruct Hcase as [-> | [-> ->]]; vm_compute; reflexivity. }
  rewrite Hstand in Hdraw. injection Hdraw as <-. exact Hc.
Qed.

(** The calls of one round, in the order in which [main] plays a round. *)
Definition Game_round : M (Game * Env) (list (list string) * string) :=
  Game_deal_hands >>>
  let! natural := Game_is_natural in
  let! records := (if natural then ret [] else Game_draw_thirds) in
  let! outcome := Game_game_result in
  ret (records, outcome).

(** X17. A round played in order never raises: on a game that is not
    running, with a shoe of at least one deck, [deal_hands()], then
    [is_natural()], then [draw_thirds()] unless there is a natural, then
    [game_result()] all return; at most 2 cards are recorded, the outcome
    is punto, banco or tie, and the round is closed. *)
Theorem Game_round_returns (g : Game) (e : Env) :
  Game_game_running g = false ->
  1 <= Shoe_num_decks (Game_shoe g) ->
  exists (records : list (list string)) (outcome : string)
         (g' : Game) (e' : Env),
    Game_round (g, e) = (Ok (records, outcome), (g', e'))
    /\ (length records <= 2)%nat
    /\ outcome ∈ ["punto"; "banco"; "tie"]%string
    /\ Game_game_running g' = false
    /\ Shoe_num_decks (Game_shoe g') = Shoe_num_decks (Game_shoe g).
Proof.
  intros Hr Hnd.
  destruct (Game_deal_hands_run g e Hr Hnd)
    as (c1 & c2 & c3 & c4 & s1 & e1 & _ & Hn1 & Hdeal).
  unfold Game_round. rewrite (bind_Ok _ _ _ _ _ Hdeal).
  set (p := mkHand [c1; c2]). set (b := mkHand [c3; c4]).
  set (g1 := mkGame true (Some p) (Some b) s1 (Game_num_decks g)).
  pose proof (Game_is_natural_running g1 e1 p b eq_refl eq_refl eq_refl) as Hnat.
  assert (forall (g2 : Game) (e2 : Env) (p2 b2 : Hand),
             Game_game_running g2 = false -> Game_punto g2 = Some p2 ->
             Game_banco g2 = Some b2 ->
             exists outcome,
               Game_game_result (g2, e2) = (Ok outcome, (g2, e2))
               /\ outcome ∈ ["punto"; "banco"; "tie"]%string) as Hres.
  { intros g2 e2 p2 b2 H2 Hp2 Hb2.
    rewrite (Game_game_result_closed g2 e2 p2 b2 H2 Hp2 Hb2).
    eexists. split; [done|].
    destruct (Hand_value p2 >? Hand_value b2); [set_solver|].
    destruct (Hand_value p2 <? Hand_value b2); set_solver. }
  destruct (Hand_is_natural p || Hand_is_natural b) eqn:Hn.
  - rewrite (bind_Ok _ _ _ _ _ Hnat). unfold bind at 1, ret at 1.
    destruct (Hres (closed g1) e1 p b eq_refl eq_refl eq_refl)
      as (outcome & Hout & Hin).
    rewrite (bind_Ok _ _ _ _ _ Hout).
    exists [], outcome, (closed g1), e1. simpl. split; [done|].
    split; [lia|]. done.
  - rewrite (bind_Ok _ _ _ _ _ Hnat).
    assert (1 <= Shoe_num_decks (Game_shoe g1)) as Hnd1 by (simpl; lia).
    destruct (Game_draw_thirds_post g1 e1 p b eq_refl eq_refl eq_refl Hn Hnd1)
      as (records & p' & b' & s' & e' & Hrun & Hn' & Hp' & Hb' & Hlen).
    rewrite (bind_Ok _ _ _ _ _ Hrun).
    destruct (Hres (mkGame false (Some p') (Some b') s' (Game_num_decks g1))
                e' p' b' eq_refl eq_refl eq_refl) as (outcome & Hout & Hin).
    rewrite (bind_Ok _ _ _ _ _ Hout).
    eexists records, outcome, _, e'. split; [done|]. simpl.
    split; [|split; [done|split; [done|simpl in Hn'; lia]]].
    assert (length (Hand_cards p') <= 3 /\ length (Hand_cards b') <= 3)%nat
      as [? ?].
    { split.
      - destruct Hp' as [->|[_ [c ->]]]; [simpl; lia|].
        rewrite length_app; simpl; lia.
      - destruct Hb' as [->|[_ [c ->]]]; [simpl; lia|].
        rewrite length_app; simpl; lia. }
    simpl in Hlen. lia.
Qed.

(** The methods of [Game] that change it, as calls. *)
Inductive Game_call : Type :=
  | call_deal_hands
  | call_is_natural
  | call_draw_thirds
  | call_game_result
  | call_create_shoe (num_decks : Z).

(** The state that a call leaves, whether it returns or raises. *)
Definition Game_after (st : Game * Env) (c : Game_call) : Game * Env :=
  match c with
  | call_deal_hands => (Game_deal_hands st).2
  | call_is_natural => (Game_is_natural st).2
  | call_draw_thirds => (Game_draw_thirds st).2
  | call_game_result => (Game_game_result st).2
  | call_create_shoe n => (Game_create_shoe n st).2
  end.

(** What every game keeps: a shoe of at least one deck, whose number of
    decks is that of the game; both hands or none; 2 cards in each hand
    while the round is running, 2 or 3 after it. *)
Definition Game_inv (g : Game) : Prop :=
  1 <= Shoe_num_decks (Game_shoe g)
  /\ Game_num_decks g = Shoe_num_decks (Game_shoe g)
  /\ match Game_punto g, Game_banco g with
     | None, None => Game_game_running g = false
     | Some p, Some b =>
         if Game_game_running g
         then length (Hand_cards p) = 2%nat /\ length (Hand_cards b) = 2%nat
         else (2 <= length (Hand_cards p) <= 3)%nat
              /\ (2 <= length (Hand_cards b) <= 3)%nat
     | _, _ => False
     end.

Lemma Shoe_init_Ok (num_decks : Z) (e : Env) :
  1 <= num_decks ->
  exists (s : Shoe) (e' : Env),
    Shoe_init num_decks e = (Ok s, e')
    /\ Shoe_num_decks s = num_decks
    /\ Env_stdout e' = Env_stdout e
    /\ holds_decks num_decks (Shoe_cards s).
Proof.
  intros Hd. unfold Shoe_init. replace (num_decks <? 1) with false by lia.
  rewrite Shoe_add_decks_None. simpl.
  eexists _, _. split; [done|]. split; [done|]. split; [done|].
  apply holds_decks_perm; [lia|]. apply shuffle_perm.
Qed.

Lemma Shoe_init_Raise (num_decks : Z) (e : Env) :
  num_decks < 1 ->
  Shoe_init num_decks e
  = (Raise (ValueError "Number of decks must be positive."), e).
Proof.
  intros Hd. unfold Shoe_init. by replace (num_decks <? 1) with true by lia.
Qed.

Lemma Game_inv_after (g : Game) (e : Env) (c : Game_call) :
  Game_inv g -> Game_inv (Game_after (g, e) c).1.
Proof.
  intros (Hnd & Hdecks & Hhands).
  destruct c as [| | | |n]; simpl.
  - (* deal_hands *)
    destruct (Game_game_running g) eqn:Hr.
    + rewrite (Game_deal_hands_running g e Hr). simpl.
      unfold Game_inv. by rewrite Hr.
    + destruct (Game_deal_hands_run g e Hr Hnd)
        as (c1 & c2 & c3 & c4 & s' & e' & _ & Hn & ->).
      unfold Game_inv; simpl. split; [lia|]. split; [congruence|done].
  - (* is_natural *)
    destruct (Game_game_running g) eqn:Hr.
    + destruct (Game_punto g) as [p|] eqn:Hp;
        destruct (Game_banco g) as [b|] eqn:Hb; try done.
      rewrite (Game_is_natural_running g e p b Hr Hp Hb).
      destruct (_ || _); simpl; unfold Game_inv; simpl.
      * rewrite Hp, Hb. split; [done|]. split; [done|].
        destruct Hhands as [-> ->]. lia.
      * by rewrite Hr, Hp, Hb.
    + rewrite (Game_is_natural_not_running g e Hr). simpl.
      unfold Game_inv. by rewrite Hr.
  - (* draw_thirds *)
    destruct (Game_game_running g) eqn:Hr.
    + destruct (Game_punto g) as [p|] eqn:Hp;
        destruct (Game_banco g) as [b|] eqn:Hb; try done.
      destruct Hhands as [Hlp Hlb].
      destruct (Hand_is_natural p || Hand_is_natural b) eqn:Hnat.
      * rewrite (Game_draw_thirds_natural g e p b Hr Hp Hb Hnat). simpl.
        unfold Game_inv; simpl. rewrite Hp, Hb. split; [done|].
        split; [done|]. lia.
      * destruct (Game_draw_thirds_post g e p b Hr Hp Hb Hnat Hnd)
          as (records & p' & b' & s' & e' & -> & Hn & Hp' & Hb' & _).
        unfold Game_inv; simpl. split; [lia|]. split; [congruence|].
        split.
        -- destruct Hp' as [->|[_ [c ->]]]; [lia|].
           rewrite length_app; simpl; lia.
        -- destruct Hb' as [->|[_ [c ->]]]; [lia|].
           rewrite length_app; simpl; lia.
    + rewrite (Game_draw_thirds_not_running g e Hr). simpl.
      unfold Game_inv. by rewrite Hr.
  - (* game_result *)
    rewrite Game_game_result_frame. simpl. done.
  - (* create_shoe *)
    unfold Game_create_shoe.
    destruct (Z_lt_le_dec n 1) as [Hlt|Hle].
    + rewrite (Shoe_init_Raise n e Hlt). simpl. done.
    + destruct (Shoe_init_Ok n e Hle) as (s & e' & -> & Hn & _).
      unfold Game_inv; simpl. split; [lia|]. split; [done|].
      destruct (Game_punto g), (Game_banco g); done.
Qed.

(** X18. Every game keeps its invariant.  A game built with at least one
    deck, after any sequence of calls of [deal_hands], [is_natural],
    [draw_thirds], [game_result] and [create_shoe], whether they return or
    raise, has a shoe of at least one deck, has both hands or none, has 2
    cards in each hand while the round is running and 2 or 3 after it. *)
Theorem Game_inv_reachable
    (num_decks : Z) (e e' : Env) (g : Game) (calls : list Game_call) :
  Game_init num_decks e = (Ok g, e') ->
  Game_inv (foldl Game_after (g, e') calls).1.
Proof.
  intros Hinit.
  assert (Game_inv g) as Hg.
  { unfold Game_init in Hinit.
    destruct (Z_lt_le_dec num_decks 1) as [Hlt|Hle].
    - rewrite (Shoe_init_Raise num_decks e Hlt) in Hinit. discriminate.
    - destruct (Shoe_init_Ok num_decks e Hle) as (s & e1 & Hs & Hn & _).
      rewrite Hs in Hinit. injection Hinit as <- <-.
      unfold Game_inv; simpl. split; [lia|]. done. }
  clear Hinit. revert g e' Hg.
  induction calls as [|c calls IH]; intros g e' Hg; simpl; [done|].
  destruct (Game_after (g, e') c) as [g1 e1] eqn:Hafter.
  apply IH. change g1 with (g1, e1).1. rewrite <- Hafter.
  by apply Game_inv_after.
Qed.

(** X19. [create_shoe(n)] with [n < 1] raises [ValueError] and leaves the
    game and the generator as they were.  With [n >= 1] it puts a new shoe
    of [n] decks in the game, at any time, also in a running round: the
    flag and the hands stay, and nothing is printed. *)
Theorem Game_create_shoe_spec (n : Z) (g : Game) (e : Env) :
  (n < 1 ->
   Game_create_shoe n (g, e)
   = (Raise (ValueError "Number of decks must be positive."), (g, e)))
  /\ (1 <= n ->
      exists (s : Shoe) (e' : Env),
        Game_create_shoe n (g, e) =
        (Ok tt,
         (mkGame (Game_game_running g) (Game_punto g) (Game_banco g) s n, e'))
        /\ Shoe_num_decks s = n
        /\ holds_decks n (Shoe_cards s)
        /\ Env_stdout e' = Env_stdout e).
Proof.
  unfold Game_create_shoe. split.
  - intros Hn. by rewrite (Shoe_init_Raise n e Hn).
  - intros Hn. destruct (Shoe_init_Ok n e Hn) as (s & e' & -> & Hs & Hout & Hd).
    by exists s, e'.
Qed.

End GameMore.

(** ** Player

    [InvalidBet] is an exception class of the module, beside the built-in
    ones and [GameError]. *)

Inductive Exc : Type :=
  | Std (x : exn)
  | InvalidBet (msg : string).

(** A computation of the betting layer: [inl] is a raised exception. *)
Definition MB (S A : Type) : Type := S -> (Exc + A) * S.

Definition retB {S A} (a : A) : MB S A := fun s => (inr a, s).
Definition raiseB {S A} (x : Exc) : MB S A := fun s => (inl x, s).
Definition bindB {S A B} (m : MB S A) (k : A -> MB S B) : MB S B :=
  fun s =>
    match m s with
    | (inr a, s') => k a s'
    | (inl x, s') => (inl x, s')
    end.

(** A computation of the engine, run in the betting layer. *)
Definition liftB {S A} (m : M S A) : MB S A :=
  fun s =>
    match m s with
    | (Ok a, s') => (inr a, s')
    | (Raise x, s') => (inl (Std x), s')
    end.

Record Player : Type := mkPlayer {
  Player_pid : Z;
  Player_balance : Z;
  Player_hand_bet : pyobj;
  Player_amount_bet : Z
}.

(** [hand in ['punto', 'banco', 'tie']] *)
Definition is_hand (o : pyobj) : bool :=
  match o with
  | PyStr s => bool_decide (s ∈ ["punto"; "banco"; "tie"]%string)
  | _ => false
  end.

(** [Player(balance)]: the state is the class attribute [Player._pid], the
    next identifier. *)
Definition Player_init (balance : pyobj) : MB Z Player :=
  fun next_pid =>
    match balance with
    | PyInt b =>
        if b <? 1 then (inl (Std (ValueError "Balance must be positive.")), next_pid)
        else (inr (mkPlayer next_pid b PyNone 0), next_pid + 1)
    | _ => (inl (Std (TypeError "Balance must be an integer.")), next_pid)
    end.

(** The setter of [hand_bet]. *)
Definition Player_set_hand_bet (hand : pyobj) : MB Player unit :=
  fun p =>
    if is_hand hand then
      (inr tt, mkPlayer (Player_pid p) (Player_balance p) hand (Player_amount_bet p))
    else (inl (Std (ValueError "Invalid hand")), p).

(** The setter of [amount_bet]. *)
Definition Player_set_amount_bet (amount : pyobj) : MB Player unit :=
  fun p =>
    match amount with
    | PyInt a =>
        if a <? 1 then (inl (Std (ValueError "Amount must be positive.")), p)
        else if a >? Player_balance p then
          (inl (Std (ValueError "Amount exceeds available balance.")), p)
        else
          (inr tt, mkPlayer (Player_pid p) (Player_balance p) (Player_hand_bet p) a)
    | _ => (inl (Std (TypeError "Amount must be a integer.")), p)
    end.

Definition Player_is_valid_bet (p : Player) : bool :=
  if negb (is_hand (Player_hand_bet p)) || (Player_amount_bet p <=? 0)
  then false else true.

Section Betting.

(** [int(amount * 0.95)], a product of floating point numbers, is not
    computed here: it is a parameter of [win]. *)
Variable int_mul_095 : Z -> Z.

Definition Player_win : MB Player unit :=
  fun p =>
    if Player_is_valid_bet p then
      let balance :=
        match Player_hand_bet p with
        | PyStr "punto" => Player_balance p + Player_amount_bet p * 1
        | PyStr "banco" => Player_balance p + int_mul_095 (Player_amount_bet p)
        | PyStr "tie" => Player_balance p + Player_amount_bet p * 8
        | _ => Player_balance p
        end in
      (inr tt, mkPlayer (Player_pid p) balance PyNone 0)
    else (inl (InvalidBet "Player does not have a valid bet"), p).

Definition Player_lose : MB Player unit :=
  fun p =>
    if Player_is_valid_bet p then
      (inr tt,
       mkPlayer (Player_pid p) (Player_balance p - Player_amount_bet p) PyNone 0)
    else (inl (InvalidBet "Player does not have a valid bet"), p).



End Betting.

(** ** Table *)

(** [l[i]] for a Python index: a negative [i] counts from the end. *)
Definition py_index {A} (l : list A) (i : Z) : option nat :=
  if (0 <=? i) && (i <? Z.of_nat (length l)) then Some (Z.to_nat i)
  else if (- Z.of_nat (length l) <=? i) && (i <? 0)
  then Some (Z.to_nat (Z.of_nat (length l) + i))
  else None.

(** [o == s] for a string [s] *)
Definition py_eq_str (o : pyobj) (s : string) : bool :=
  match o with
  | PyStr s' => bool_decide (s' = s)
  | _ => false
  end.

Section TableDef.
Context `{Random}.
Variable int_mul_095 : Z -> Z.

Record Table : Type := mkTable {
  Table_game : Game;
  Table_bets_open : bool;
  Table_players : list Player
}.

(** The state of a program with one table: the table, the environment
    and [Player._pid]. *)
Definition TState : Type := Table * Env * Z.

(** A method of [Game] run on the table. *)
Definition on_game {A} (m : M (Game * Env) A) : MB TState A :=
  fun '(t, e, n) =>
    match m (Table_game t, e) with
    | (Ok a, (g, e')) =>
        (inr a, (mkTable g (Table_bets_open t) (Table_players t), e', n))
    | (Raise x, (g, e')) =>
        (inl (Std x), (mkTable g (Table_bets_open t) (Table_players t), e', n))
    end.

(** A method of the player [self._players[player_i]]. *)
Definition on_player {A} (player_i : Z) (m : MB Player A) : MB TState A :=
  fun '(t, e, n) =>
    match py_index (Table_players t) player_i with
    | Some i =>
        match Table_players t !! i with
        | Some p =>
            let '(r, p') := m p in
            (r, (mkTable (Table_game t) (Table_bets_open t)
                         (<[i := p']> (Table_players t)), e, n))
        | None => (inl (Std (IndexError "list index out of range")), (t, e, n))
        end
    | None => (inl (Std (IndexError "list index out of range")), (t, e, n))
    end.

Definition set_bets_open (b : bool) : MB TState unit :=
  fun '(t, e, n) => (inr tt, (mkTable (Table_game t) b (Table_players t), e, n)).

(** [Table(num_decks=8)] *)
Definition Table_init (num_decks : Z) : MB Env Table :=
  fun e =>
    match Game_init num_decks e with
    | (Ok g, e') => (inr (mkTable g true []), e')
    | (Raise x, e') => (inl (Std x), e')
    end.

(** [available_players]: the indexes of the players with a positive
    balance.  [self._players.index(player)] is the index of [player]
    itself, since players are compared as objects. *)
Definition Table_available_players (t : Table) : list nat :=
  List.filter (fun i => match Table_players t !! i with
                        | Some p => 0 <? Player_balance p
                        | None => false
                        end)
              (seq 0 (length (Table_players t))).

(** [valid_bets]: those of them that have a valid bet. *)
Definition Table_valid_bets (t : Table) : list nat :=
  List.filter (fun i => match Table_players t !! i with
                        | Some p => Player_is_valid_bet p
                        | None => false
                        end)
              (Table_available_players t).

Definition Table_deal_hands : MB TState unit :=
  fun st =>
    if negb (Table_bets_open st.1.1) then
      (inl (Std (GameError "There are some bets on table.")), st)
    else
      bindB (set_bets_open false) (fun _ => on_game Game_deal_hands) st.

Definition Table_add_player (balance : pyobj) : MB TState unit :=
  fun '(t, e, n) =>
    match Player_init balance n with
    | (inr p, n') =>
        (inr tt,
         (mkTable (Table_game t) (Table_bets_open t) (Table_players t ++ [p]),
          e, n'))
    | (inl x, n') => (inl x, (t, e, n'))
    end.

Definition Table_bet (player_i : Z) (hand_bet amount_bet : pyobj)
  : MB TState unit :=
  fun st =>
    if negb (Table_bets_open st.1.1) then
      (inl (Std (GameError
                   "A player cannot make a bet after the hands are dealt.")),
       st)
    else
      bindB (on_player player_i (Player_set_hand_bet hand_bet))
            (fun _ => on_player player_i (Player_set_amount_bet amount_bet))
            st.

(** [bet_result(player_i)]: the player's bet is read before the result
    of the game. *)
Definition Table_bet_result (player_i : Z) : MB TState (string * Z) :=
  bindB (on_player player_i (fun p => (inr (Player_hand_bet p), p)))
    (fun hand_bet =>
  bindB (on_game Game_game_result) (fun outcome =>
  bindB (if py_eq_str hand_bet outcome then
           bindB (on_player player_i (Player_win int_mul_095)) (fun _ =>
           bindB (on_player player_i (fun p => (inr (Player_balance p), p)))
             (fun balance => retB ("win"%string, balance)))
         else
           bindB (on_player player_i Player_lose) (fun _ =>
           bindB (on_player player_i (fun p => (inr (Player_balance p), p)))
             (fun balance => retB ("lose"%string, balance))))
    (fun result =>
  bindB (fun st =>
           if bool_decide (Table_valid_bets st.1.1 = [])
           then set_bets_open true st else (inr tt, st))
    (fun _ => retB result)))).

(** The calls on a table. *)
Inductive Table_call : Type :=
  | tcall_deal_hands
  | tcall_add_player (balance : pyobj)
  | tcall_bet (player_i : Z) (hand_bet amount_bet : pyobj)
  | tcall_bet_result (player_i : Z)
  | tcall_is_natural
  | tcall_draw_thirds
  | tcall_game_result
  | tcall_create_shoe (num_decks : Z).

Definition Table_after (st : TState) (c : Table_call) : TState :=
  match c with
  | tcall_deal_hands => (Table_deal_hands st).2
  | tcall_add_player balance => (Table_add_player balance st).2
  | tcall_bet i hand amount => (Table_bet i hand amount st).2
  | tcall_bet_result i => (Table_bet_result i st).2
  | tcall_is_natural => (on_game Game_is_natural st).2
  | tcall_draw_thirds => (on_game Game_draw_thirds st).2
  | tcall_game_result => (on_game Game_game_result st).2
  | tcall_create_shoe n => (on_game (Game_create_shoe n) st).2
  end.

End TableDef.

(** ** Properties of the players *)

Section PlayerProps.
Variable int_mul_095 : Z -> Z.

(** A player without a bet: the state that [win()] and [lose()] leave. *)
Lemma Player_no_bet (pid balance : Z) :
  Player_is_valid_bet (mkPlayer pid balance PyNone 0) = false.
Proof. reflexivity. Qed.





End PlayerProps.

(** ** Properties of the table *)

Section TableProps.
Context `{Random}.
Variable int_mul_095 : Z -> Z.

Lemma py_index_lt {A} (l : list A) (i : Z) (k : nat) :
  py_index l i = Some k -> (k < length l)%nat.
Proof.
  unfold py_index.
  destruct ((0 <=? i) && (i <? Z.of_nat (length l))) eqn:E1.
  - intros [= <-]. lia.
  - destruct ((- Z.of_nat (length l) <=? i) && (i <? 0)) eqn:E2; [|done].
    intros [= <-]. lia.
Qed.

Lemma py_index_insert {A} (l : list A) (i : Z) (k : nat) (x : A) :
  py_index (<[k := x]> l) i = py_index l i.
Proof. unfold py_index. by rewrite length_insert. Qed.

(** Bets are closed and no player has a valid bet. *)
Definition Table_stuck (t : Table) : Prop :=
  Table_bets_open t = false
  /\ Forall (fun p => Player_is_valid_bet p = false) (Table_players t).

Lemma Table_after_stuck (st : TState) (c : Table_call) :
  Table_stuck st.1.1 -> Table_stuck (Table_after int_mul_095 st c).1.1.
Proof.
  destruct st as [[[g bo ps] e] n]. unfold Table_stuck; simpl.
  intros [-> Hps]. destruct c as [|balance|i hand amount|i| | | |k]; simpl.
  - done.
  - unfold Table_add_player, Player_init; simpl.
    destruct balance as [|b| |]; simpl; try done.
    destruct (b <? 1); simpl; [done|]. split; [done|].
    apply Forall_app. split; [done|]. by apply Forall_singleton.
  - done.
  - unfold Table_bet_result, bindB, on_player; simpl.
    destruct (py_index ps i) as [k|] eqn:Hi; [|done].
    destruct (ps !! k) as [pl|] eqn:Hk; [|done]. simpl.
    rewrite (list_insert_id ps k pl Hk).
    pose proof (proj1 (Forall_lookup _ ps) Hps k pl Hk) as Hpl. simpl in Hpl.
    unfold on_game; simpl.
    pose proof (Game_game_result_frame (g, e)) as Hframe.
    destruct (Game_game_result (g, e)) as [[o|x] [g' e']]; simpl in Hframe;
      injection Hframe as -> ->; [|done].
    destruct (py_eq_str (Player_hand_bet pl) o); simpl;
      rewrite Hi, Hk; unfold Player_win, Player_lose; rewrite Hpl; simpl;
      by rewrite (list_insert_id ps k pl Hk).
  - unfold on_game; simpl.
    by destruct (Game_is_natural (g, e)) as [[?|?] [? ?]].
  - unfold on_game; simpl.
    by destruct (Game_draw_thirds (g, e)) as [[?|?] [? ?]].
  - unfold on_game; simpl.
    by destruct (Game_game_result (g, e)) as [[?|?] [? ?]].
  - unfold on_game, Game_create_shoe; simpl.
    by destruct (Shoe_init k e) as [[?|?] ?].
Qed.

Lemma Table_deal_hands_stuck (st st' : TState) :
  Forall (fun p => Player_is_valid_bet p = false) (Table_players st.1.1) ->
  Table_deal_hands st = (inr tt, st') -> Table_stuck st'.1.1.
Proof.
  destruct st as [[[g bo ps] e] n]. unfold Table_deal_hands; simpl.
  intros Hps. destruct bo; simpl; [|done].
  unfold bindB, set_bets_open, on_game; simpl.
  destruct (Game_deal_hands (g, e)) as [[?|?] [? ?]]; [|done].
  intros Heq. inversion Heq; subst. by split.
Qed.

(** X22. A table on which no player has a valid bet deals once.  When
    [deal_hands()] has returned on such a table, then after any calls
    of the methods of the table, [deal_hands()] raises the error of bets
    on the table and [bet] raises the error of hands dealt, and they
    change nothing: bets are opened again only by a [bet_result] on a
    valid bet, and no bet can be placed. *)
Theorem Table_without_bets_deals_once
    (st st' : TState) (calls : list Table_call)
    (player_i : Z) (hand_bet amount_bet : pyobj) :
  Forall (fun p => Player_is_valid_bet p = false) (Table_players st.1.1) ->
  Table_deal_hands st = (inr tt, st') ->
  Table_deal_hands (foldl (Table_after int_mul_095) st' calls)
  = (inl (Std (GameError "There are some bets on table.")),
     foldl (Table_after int_mul_095) st' calls)
  /\ Table_bet player_i hand_bet amount_bet
       (foldl (Table_after int_mul_095) st' calls)
     = (inl (Std (GameError
                    "A player cannot make a bet after the hands are dealt.")),
        foldl (Table_after int_mul_095) st' calls).
Proof.
  intros Hps Hdeal.
  pose proof (Table_deal_hands_stuck st st' Hps Hdeal) as Hstuck.
  clear Hps Hdeal.
  assert (Table_stuck (foldl (Table_after int_mul_095) st' calls).1.1)
    as [Hclosed _].
  { revert st' Hstuck.
    induction calls as [|c calls IH]; intros st' Hstuck; simpl; [done|].
    apply IH. by apply Table_after_stuck. }
  unfold Table_deal_hands, Table_bet. by rewrite Hclosed.
Qed.


(** X24. [bet] is not atomic.  While bets are open, with a hand that is
    accepted and an amount that is refused (not an integer, less than 1,
    or more than the balance), [bet] raises and yet the player's bet is
    now on the new hand, with the amount it had before. *)
Theorem Table_bet_not_atomic
    (t : Table) (e : Env) (n : Z) (player_i : Z) (k : nat) (pl : Player)
    (hand_bet amount_bet : pyobj) :
  Table_bets_open t = true ->
  py_index (Table_players t) player_i = Some k ->
  Table_players t !! k = Some pl ->
  is_hand hand_bet = true ->
  (forall a : Z, amount_bet = PyInt a -> a < 1 \/ Player_balance pl < a) ->
  exists x : exn,
    Table_bet player_i hand_bet amount_bet (t, e, n) =
    (inl (Std x),
     (mkTable (Table_game t) true
        (<[k := mkPlayer (Player_pid pl) (Player_balance pl) hand_bet
                         (Player_amount_bet pl)]> (Table_players t)),
      e, n)).
Proof.
  destruct t as [g bo ps]; simpl. intros -> Hi Hk Hhand Hamount.
  pose proof (py_index_lt ps player_i k Hi) as Hlt.
  unfold Table_bet, bindB, on_player; simpl.
  rewrite Hi, Hk. unfold Player_set_hand_bet. rewrite Hhand; simpl.
  rewrite py_index_insert, Hi, list_lookup_insert_eq by done.
  unfold Player_set_amount_bet; simpl.
  destruct amount_bet as [|a| |]; simpl;
    try (eexists; by rewrite list_insert_insert_eq).
  destruct (a <? 1) eqn:H1; simpl;
    [eexists; by rewrite list_insert_insert_eq|].
  destruct (a >? Player_balance pl) eqn:H2; simpl;
    [eexists; by rewrite list_insert_insert_eq|].
  destruct (Hamount a eq_refl); lia.
Qed.

End TableProps.

(** ** More concrete runs *)

Section MoreRuns.
#[local] Existing Instance Random_cut.

(** [int(amount * 0.95)] for the runs. *)
Definition gain_095 (amount : Z) : Z := amount * 95 / 100.

Definition shoe2 : Shoe := mkShoe 1 [mkCard king clubs; mkCard six hearts].

(** Punto at 5 will draw the 6 of hearts; banco stands on 7. *)
Definition game_stand : Game :=
  mkGame true (Some punto5) (Some banco7) shoe2 1.

Definition player_punto : Player := mkPlayer 1 100 (PyStr "punto") 10.

Definition table_new : Table := mkTable game_idle true [].
Definition table_open : Table := mkTable game_idle true [player_punto].

Lemma Shoe_draw_cards_add_witness :
  Shoe_draw_cards (-3) (shoe4, env0) = (Ok [], (shoe4, env0))
  /\ Shoe_draw_cards (1 + 2) (shoe4, env0) =
     (let! first := Shoe_draw_cards 1 in
      let! second := Shoe_draw_cards 2 in
      ret (first ++ second)) (shoe4, env0).
Proof.
  split.
  - apply (proj1 (Shoe_draw_cards_add (-3) 0 (shoe4, env0))). lia.
  - apply (proj2 (Shoe_draw_cards_add 1 2 (shoe4, env0))); lia.
Defined.

Lemma Shoe_add_decks_arg_witness :
  exists (s' : Shoe) (e' : Env),
    Shoe_add_decks (Some (-2)) (shoe4, env0) = (Ok tt, (s', e'))
    /\ Shoe_cards s' ≡ₚ Shoe_cards shoe4.
Proof.
  destruct (proj2 (Shoe_add_decks_arg (-2) shoe4 env0))
    as (s' & e' & Hrun & _ & _ & _ & Hneg & _).
  exists s', e'. split; [exact Hrun|]. apply Hneg. lia.
Defined.

Lemma Shoe_draw_cards_conserves_witness :
  1 <= Shoe_num_decks shoe2
  /\ 0 <= 3
  /\ exists (drawn : list Card) (s' : Shoe) (e' : Env) (refills : nat),
       Shoe_draw_cards 3 (shoe2, env0) = (Ok drawn, (s', e'))
       /\ forall c : Card,
            Z.of_nat (count_occ Card_eq_dec (Shoe_cards s') c)
            + Z.of_nat (count_occ Card_eq_dec drawn c)
            = Z.of_nat (count_occ Card_eq_dec (Shoe_cards shoe2) c)
              + Z.of_nat refills * Shoe_num_decks shoe2.
Proof.
  assert (1 <= Shoe_num_decks shoe2) as Hdecks by (simpl; lia).
  assert (0 <= 3) as Hn by lia.
  split; [exact Hdecks|]. split; [exact Hn|].
  destruct (Shoe_draw_cards_conserves shoe2 env0 3 Hdecks Hn)
    as (drawn & s' & e' & k & Hrun & _ & _ & Hcount).
  exists drawn, s', e', k. split; [exact Hrun | exact Hcount].
Defined.

Lemma Shoe_draw_cards_full_shoe_witness :
  holds_decks 1 one_deck
  /\ exists (drawn : list Card) (s' : Shoe),
       Shoe_draw_cards 5 (mkShoe 1 one_deck, env0) = (Ok drawn, (s', env0))
       /\ forall c : Card,
            Z.of_nat (count_occ Card_eq_dec drawn c) <= 1.
Proof.
  assert (holds_decks 1 one_deck) as Hfull.
  { apply holds_decks_perm; [lia|]. exact (Permutation_refl one_deck). }
  split; [exact Hfull|].
  assert (1 <= Shoe_num_decks (mkShoe 1 one_deck)) as Hdecks by (simpl; lia).
  assert (0 <= 5 <= Shoe_num_decks (mkShoe 1 one_deck) * 52) as Hn
    by (simpl; lia).
  destruct (Shoe_draw_cards_full_shoe (mkShoe 1 one_deck) env0 5
              Hdecks Hfull Hn) as (drawn & s' & Hrun & Hcount).
  exists drawn, s'. split; [exact Hrun|].
  intros c. exact (proj2 (Hcount c)).
Defined.

Lemma Game_deal_hands_draws_witness :
  Game_game_running game_idle = false
  /\ 1 <= Shoe_num_decks (Game_shoe game_idle)
  /\ exists (c1 c2 c3 c4 : Card) (s' : Shoe) (e' : Env),
       Shoe_draw_cards 4 (Game_shoe game_idle, env0)
       = (Ok [c1; c2; c3; c4], (s', e'))
       /\ Game_deal_hands (game_idle, env0) =
          (Ok tt,
           (mkGame true (Some (mkHand [c1; c2])) (Some (mkHand [c3; c4])) s'
                   (Game_num_decks game_idle), e')).
Proof.
  assert (1 <= Shoe_num_decks (Game_shoe game_idle)) as Hdecks
    by (simpl; lia).
  split; [reflexivity|]. split; [exact Hdecks|].
  exact (Game_deal_hands_draws game_idle env0 eq_refl Hdecks).
Defined.

Lemma Game_wrong_phase_witness :
  Game_deal_hands (game_dealt, env0)
  = (Raise (GameError "Game is running"), (game_dealt, env0))
  /\ Game_draw_thirds (game_idle, env0)
     = (Raise (GameError "Game is not running."), (game_idle, env0))
  /\ exists msg : string,
       Game_game_result (game_idle, env0)
       = (Raise (AttributeError msg), (game_idle, env0)).
Proof.
  split; [|split].
  - exact (proj1 (proj1 (Game_wrong_phase game_dealt env0) eq_refl)).
  - exact (proj2 (proj1 (proj2 (Game_wrong_phase game_idle env0)) eq_refl)).
  - exact (proj2 (proj2 (proj2 (proj2 (Game_wrong_phase game_idle env0))
                           eq_refl eq_refl eq_refl))).
Defined.

Lemma Game_is_natural_spec_witness :
  exists natural : bool,
    natural = Hand_is_natural punto5 || Hand_is_natural banco5
    /\ Game_is_natural (game_thirds, env0)
       = (Ok natural, (if natural then closed game_thirds else game_thirds, env0)).
Proof.
  exact (Game_is_natural_spec game_thirds env0 punto5 banco5
           eq_refl eq_refl eq_refl).
Defined.

Lemma Game_draw_thirds_closes_witness :
  Hand_is_natural punto5 || Hand_is_natural banco5 = false
  /\ exists (records : list (list string)) (g' : Game) (e' : Env),
       Game_draw_thirds (game_thirds, env0) = (Ok records, (g', e'))
       /\ Game_game_running g' = false
       /\ Game_draw_thirds (g', e')
          = (Raise (GameError "Game is not running."), (g', e')).
Proof.
  assert (Hand_is_natural punto5 || Hand_is_natural banco5 = false) as Hnat
    by reflexivity.
  assert (1 <= Shoe_num_decks (Game_shoe game_thirds)) as Hdecks
    by (simpl; lia).
  split; [exact Hnat|].
  destruct (Game_draw_thirds_closes game_thirds env0 punto5 banco5
              eq_refl eq_refl eq_refl eq_refl eq_refl Hnat Hdecks)
    as (records & g' & e' & p' & b' & Hrun & Hclosed & _ & _ & _ & _ & _ & Hagain).
  exists records, g', e'. split; [exact Hrun|]. split; [exact Hclosed|].
  exact Hagain.
Defined.

Lemma Game_draw_thirds_banco_stands_witness :
  Shoe_draw_cards 1 (Game_shoe game_stand, env0)
  = (Ok [mkCard six hearts], (mkShoe 1 [mkCard king clubs], env0))
  /\ Hand_value banco7 = 7
  /\ Game_draw_thirds (game_stand, env0) =
     (Ok [["punto"%string; Card_str (mkCard six hearts)]],
      (mkGame false
         (Some (mkHand (Hand_cards punto5 ++ [mkCard six hearts])))
         (Some banco7) (mkShoe 1 [mkCard king clubs]) 1, env0)).
Proof.
  assert (Shoe_draw_cards 1 (Game_shoe game_stand, env0)
          = (Ok [mkCard six hearts], (mkShoe 1 [mkCard king clubs], env0)))
    as Hdraw by reflexivity.
  assert (Hand_value banco7 = 7) as Hseven by reflexivity.
  assert (1 <= Shoe_num_decks (Game_shoe game_stand)) as Hdecks
    by (simpl; lia).
  split; [exact Hdraw|]. split; [exact Hseven|].
  exact (Game_draw_thirds_banco_stands game_stand env0 punto5 banco7
           (mkCard six hearts) (mkShoe 1 [mkCard king clubs]) env0
           eq_refl eq_refl eq_refl eq_refl Hdecks eq_refl Hdraw eq_refl
           (or_introl Hseven)).
Defined.

Lemma Game_round_returns_witness :
  Game_game_running game_idle = false
  /\ exists (records : list (list string)) (outcome : string)
            (g' : Game) (e' : Env),
       Game_round (game_idle, env0) = (Ok (records, outcome), (g', e'))
       /\ Game_game_running g' = false.
Proof.
  assert (1 <= Shoe_num_decks (Game_shoe game_idle)) as Hdecks
    by (simpl; lia).
  split; [reflexivity|].
  destruct (Game_round_returns game_idle env0 eq_refl Hdecks)
    as (records & outcome & g' & e' & Hrun & _ & _ & Hclosed & _).
  exists records, outcome, g', e'. split; [exact Hrun | exact Hclosed].
Defined.

Lemma Game_inv_reachable_witness :
  exists (g : Game) (e' : Env),
    Game_init 1 env0 = (Ok g, e')
    /\ Game_inv
         (foldl Game_after (g, e')
            [call_draw_thirds; call_deal_hands; call_deal_hands;
             call_is_natural; call_create_shoe 0; call_draw_thirds;
             call_game_result]).1.
Proof.
  destruct (Game_init 1 env0) as [[g|x] e'] eqn:Hinit;
    [|vm_compute in Hinit; discriminate].
  exists g, e'. split; [reflexivity|].
  exact (Game_inv_reachable 1 env0 e' g _ Hinit).
Defined.

Lemma Game_create_shoe_spec_witness :
  Game_create_shoe 0 (game_dealt, env0)
  = (Raise (ValueError "Number of decks must be positive."), (game_dealt, env0))
  /\ exists (s : Shoe) (e' : Env),
       Game_create_shoe 2 (game_dealt, env0) =
       (Ok tt, (mkGame true (Some punto9) (Some banco7) s 2, e'))
       /\ holds_decks 2 (Shoe_cards s).
Proof.
  split.
  - apply (proj1 (Game_create_shoe_spec 0 game_dealt env0)). lia.
  - assert (1 <= 2) as Hn by lia.
    destruct (proj2 (Game_create_shoe_spec 2 game_dealt env0) Hn)
      as (s & e' & Hrun & _ & Hfull & _).
    exists s, e'. split; [exact Hrun | exact Hfull].
Defined.



Lemma Table_without_bets_deals_once_witness :
  Table_deal_hands (table_new, env0, 1)
  = (inr tt, (mkTable game_dealt false [], env0, 1))
  /\ Table_deal_hands
       (foldl (Table_after gain_095) (mkTable game_dealt false [], env0, 1)
          [tcall_is_natural; tcall_add_player (PyInt 50); tcall_bet_result 0])
     = (inl (Std (GameError "There are some bets on table.")),
        foldl (Table_after gain_095) (mkTable game_dealt false [], env0, 1)
          [tcall_is_natural; tcall_add_player (PyInt 50); tcall_bet_result 0]).
Proof.
  assert (Table_deal_hands (table_new, env0, 1)
          = (inr tt, (mkTable game_dealt false [], env0, 1))) as Hdeal
    by reflexivity.
  split; [exact Hdeal|].
  exact (proj1 (Table_without_bets_deals_once gain_095
                  (table_new, env0, 1) _ _ 0 PyNone PyNone
                  (Forall_nil_2 _) Hdeal)).
Defined.


Lemma Table_bet_not_atomic_witness :
  exists x : exn,
    Table_bet 0 (PyStr "banco") (PyInt 1000) (table_open, env0, 2) =
    (inl (Std x),
     (mkTable game_idle true [mkPlayer 1 100 (PyStr "banco") 10], env0, 2)).
Proof.
  apply (Table_bet_not_atomic table_open env0 2 0 0%nat player_punto
           (PyStr "banco") (PyInt 1000) eq_refl eq_refl eq_refl eq_refl).
  intros a [= <-]. right. simpl. lia.
Defined.

End MoreRuns.

(** ** The program [main] *)

From stdpp Require Import pretty.
Local Open Scope Z_scope.




Section Main.
Context `{Random}.






End Main.

Section MainProps.
Context `{Random}.








End MainProps.

(** ** The constructor of [Card]

    [Card(rank, suit)] for arguments that are [None], integers, strings or
    cards; [in] compares integers and strings by value. *)

#[global] Instance pyobj_eq_dec : EqDecision pyobj.
Proof. solve_decision. Defined.

Definition rank_py (r : Rank) : pyobj :=
  match rank_int r with
  | Some n => PyInt n
  | None => PyStr (rank_str r)
  end.

Definition suit_py (s : Suit) : pyobj := PyStr (suit_str s).

Definition RANKS_py : list pyobj := rank_py <$> RANKS.
Definition SUITS_py : list pyobj := suit_py <$> SUITS.

(** The rank, or the suit, that an accepted argument stands for. *)
Definition rank_of_py (o : pyobj) : option Rank :=
  list_find (fun r => rank_py r = o) RANKS ≫= fun ir => Some ir.2.

Definition suit_of_py (o : pyobj) : option Suit :=
  list_find (fun s => suit_py s = o) SUITS ≫= fun js => Some js.2.

Definition Card_init (rank suit : pyobj) : Res Card :=
  if negb (bool_decide (rank ∈ RANKS_py)) then
    Raise (ValueError "Invalid card rank.")
  else if negb (bool_decide (suit ∈ SUITS_py)) then
    Raise (ValueError "Invalid card suit.")
  else
    match rank_of_py rank, suit_of_py suit with
    | Some r, Some s => Ok (mkCard r s)
    | _, _ => Raise (ValueError "Invalid card rank.")
    end.

Lemma rank_of_py_rank_py (r : Rank) : rank_of_py (rank_py r) = Some r.
Proof. by destruct r. Qed.

Lemma suit_of_py_suit_py (s : Suit) : suit_of_py (suit_py s) = Some s.
Proof. by destruct s. Qed.

Lemma rank_in_RANKS_py (o : pyobj) :
  o ∈ RANKS_py -> exists r : Rank, o = rank_py r.
Proof.
  unfold RANKS_py. intros Ho. apply list_elem_of_fmap in Ho as (r & -> & _).
  by exists r.
Qed.

Lemma suit_in_SUITS_py (o : pyobj) :
  o ∈ SUITS_py -> exists s : Suit, o = suit_py s.
Proof.
  unfold SUITS_py. intros Ho. apply list_elem_of_fmap in Ho as (s & -> & _).
  by exists s.
Qed.

(** X26. [Card(rank, suit)] builds exactly the 52 cards.  Every rank of
    [RANKS] with every suit of [SUITS] gives its card; a card is built
    from no other arguments; a rank that is not in [RANKS] raises the
    error of the rank, whatever the suit, and a suit that is not in
    [SUITS] raises the error of the suit when the rank is accepted. *)
Theorem Card_init_spec :
  (forall (r : Rank) (s : Suit),
      Card_init (rank_py r) (suit_py s) = Ok (mkCard r s))
  /\ (forall (rank suit : pyobj) (c : Card),
         Card_init rank suit = Ok c ->
         rank = rank_py (Card_rank c) /\ suit = suit_py (Card_suit c))
  /\ (forall rank suit : pyobj,
         rank ∉ RANKS_py ->
         Card_init rank suit = Raise (ValueError "Invalid card rank."))
  /\ (forall rank suit : pyobj,
         rank ∈ RANKS_py -> suit ∉ SUITS_py ->
         Card_init rank suit = Raise (ValueError "Invalid card suit.")).
Proof.
  split; [|split; [|split]].
  - intros r s. by destruct r, s.
  - intros rank suit c. unfold Card_init.
    case_bool_decide as Hr; simpl; [|done].
    case_bool_decide as Hs; simpl; [|done].
    destruct (rank_in_RANKS_py rank Hr) as [r ->].
    destruct (suit_in_SUITS_py suit Hs) as [s ->].
    rewrite rank_of_py_rank_py, suit_of_py_suit_py. by intros [= <-].
  - intros rank suit Hr. unfold Card_init. by rewrite bool_decide_false.
  - intros rank suit Hr Hs. unfold Card_init.
    rewrite bool_decide_true by done. simpl. by rewrite bool_decide_false.
Qed.

Lemma Card_init_spec_witness :
  Card_init (PyInt 7) (PyStr "hearts") = Ok (mkCard seven hearts)
  /\ Card_init (PyInt 1) (PyStr "stars") = Raise (ValueError "Invalid card rank.")
  /\ Card_init (PyStr "ace") PyNone = Raise (ValueError "Invalid card suit.").
Proof.
  destruct Card_init_spec as (Hbuilt & _ & Hrank & Hsuit).
  split; [|split].
  - exact (Hbuilt seven hearts).
  - apply Hrank. vm_compute. intros Hin.
    repeat (apply elem_of_cons in Hin as [Hin|Hin]; [discriminate|]).
    by apply elem_of_nil in Hin.
  - apply Hsuit.
    + apply (list_elem_of_fmap_2 rank_py RANKS ace). by left.
    + vm_compute. intros Hin.
      repeat (apply elem_of_cons in Hin as [Hin|Hin]; [discriminate|]).
      by apply elem_of_nil in Hin.
Defined.
